(** * The product catalog of the storefront: [lib/amazon-api.ts]

    A shallow embedding of the mock catalog service ([searchProducts],
    [getProductByASIN], [getFeaturedProducts]) and of the data model in
    [types/product.ts], followed by the properties of the three read
    operations, and of the pages and the product card that call them.

    Conventions of the embedding.
    - A TypeScript optional field [f?: T] is an [option T]; [None] is
      [undefined].
    - A JavaScript [number] is a binary64 float: Rocq's primitive [float].
      The relational operators follow ECMAScript's IsLessThan, computed on
      the IEEE-754 reading [Prim2SF] of the operands.
    - A JavaScript string is a Rocq [string] holding the UTF-8 bytes of the
      source literal.  [toLowerCase] and [toUpperCase] are the Unicode
      case conversions of the built-ins, computed on the code points of
      that text.
    - An [async] function is a computation over the module-level array
      [MOCK_PRODUCTS] that settles as fulfilled or rejected; the artificial
      delays only postpone the settlement and carry no data. *)

From Stdlib Require Import List Sorted String Ascii Bool Arith.
From Stdlib Require Import NArith ZArith PArith Lia.
From Stdlib Require Import PrimFloat SpecFloat FloatOps.
Import ListNotations.

Set Warnings "-inexact-float".
Local Open Scope string_scope.

(** ** Unicode case conversion

    [String.prototype.toLowerCase] and [toUpperCase] follow the Unicode
    default case conversion: the mappings of UnicodeData and SpecialCasing
    that depend on no language, with the Final_Sigma rule for the Greek
    capital sigma.  The tables below are those of Unicode 14.0.  A string
    is read as the UTF-8 text of its characters; a byte that is not part
    of well-formed UTF-8 is carried through unchanged. *)

Module Unicode.

Local Open Scope N_scope.

(** One character of a string: a code point, or a byte outside
    well-formed UTF-8. *)
Inductive Char : Set :=
| CodePoint (n : N)
| Stray (b : ascii).

Definition isCont (n : N) : bool := (0x80 <=? n) && (n <=? 0xbf).

Fixpoint decode (s : string) : list Char :=
  match s with
  | EmptyString => []
  | String b0 r0 =>
      let n0 := N_of_ascii b0 in
      if n0 <? 0x80 then CodePoint n0 :: decode r0
      else
        match r0 with
        | String b1 r1 =>
            let n1 := N_of_ascii b1 in
            if isCont n1 then
              if (0xc2 <=? n0) && (n0 <=? 0xdf)
              then CodePoint ((n0 - 0xc0) * 64 + (n1 - 0x80)) :: decode r1
              else
                match r1 with
                | String b2 r2 =>
                    let n2 := N_of_ascii b2 in
                    let cp3 :=
                      (n0 - 0xe0) * 4096 + (n1 - 0x80) * 64 + (n2 - 0x80) in
                    if isCont n2 then
                      if (0xe0 <=? n0) && (n0 <=? 0xef) && (0x800 <=? cp3)
                      then CodePoint cp3 :: decode r2
                      else
                        match r2 with
                        | String b3 r3 =>
                            let n3 := N_of_ascii b3 in
                            let cp4 :=
                              (n0 - 0xf0) * 262144 + (n1 - 0x80) * 4096
                              + (n2 - 0x80) * 64 + (n3 - 0x80) in
                            if isCont n3 && (0xf0 <=? n0) && (n0 <=? 0xf4)
                               && (0x10000 <=? cp4) && (cp4 <=? 0x10ffff)
                            then CodePoint cp4 :: decode r3
                            else Stray b0 :: decode r0
                        | EmptyString => Stray b0 :: decode r0
                        end
                    else Stray b0 :: decode r0
                | EmptyString => Stray b0 :: decode r0
                end
            else Stray b0 :: decode r0
        | EmptyString => Stray b0 :: decode r0
        end
  end.

Definition bytes (l : list N) : string :=
  fold_right (fun n s => String (ascii_of_N n) s) EmptyString l.

Definition encodeCodePoint (n : N) : string :=
  if n <? 0x80 then bytes [n]
  else if n <? 0x800 then bytes [0xc0 + n / 64; 0x80 + n mod 64]
  else if n <? 0x10000
       then bytes [0xe0 + n / 4096; 0x80 + (n / 64) mod 64; 0x80 + n mod 64]
       else bytes [0xf0 + n / 262144; 0x80 + (n / 4096) mod 64;
                   0x80 + (n / 64) mod 64; 0x80 + n mod 64].

Definition encodeChar (c : Char) : string :=
  match c with
  | CodePoint n => encodeCodePoint n
  | Stray b => String b EmptyString
  end.

Fixpoint encode (l : list Char) : string :=
  match l with
  | [] => EmptyString
  | c :: rest => encodeChar c ++ encode rest
  end.

(** Simple lower-case mappings: every [step]-th code point from [first] to
    [last] maps to [target] plus its offset from [first]. *)
Definition lowerRuns : list (N * N * N * N) :=
  [ (0x41, 0x5a, 1, 0x61); (0xc0, 0xd6, 1, 0xe0);
    (0xd8, 0xde, 1, 0xf8); (0x100, 0x12e, 2, 0x101);
    (0x132, 0x136, 2, 0x133); (0x139, 0x147, 2, 0x13a);
    (0x14a, 0x176, 2, 0x14b); (0x178, 0x178, 1, 0xff);
    (0x179, 0x17d, 2, 0x17a); (0x181, 0x181, 1, 0x253);
    (0x182, 0x184, 2, 0x183); (0x186, 0x186, 1, 0x254);
    (0x187, 0x187, 1, 0x188); (0x189, 0x18a, 1, 0x256);
    (0x18b, 0x18b, 1, 0x18c); (0x18e, 0x18e, 1, 0x1dd);
    (0x18f, 0x18f, 1, 0x259); (0x190, 0x190, 1, 0x25b);
    (0x191, 0x191, 1, 0x192); (0x193, 0x193, 1, 0x260);
    (0x194, 0x194, 1, 0x263); (0x196, 0x196, 1, 0x269);
    (0x197, 0x197, 1, 0x268); (0x198, 0x198, 1, 0x199);
    (0x19c, 0x19c, 1, 0x26f); (0x19d, 0x19d, 1, 0x272);
    (0x19f, 0x19f, 1, 0x275); (0x1a0, 0x1a4, 2, 0x1a1);
    (0x1a6, 0x1a6, 1, 0x280); (0x1a7, 0x1a7, 1, 0x1a8);
    (0x1a9, 0x1a9, 1, 0x283); (0x1ac, 0x1ac, 1, 0x1ad);
    (0x1ae, 0x1ae, 1, 0x288); (0x1af, 0x1af, 1, 0x1b0);
    (0x1b1, 0x1b2, 1, 0x28a); (0x1b3, 0x1b5, 2, 0x1b4);
    (0x1b7, 0x1b7, 1, 0x292); (0x1b8, 0x1b8, 1, 0x1b9);
    (0x1bc, 0x1bc, 1, 0x1bd); (0x1c4, 0x1c4, 1, 0x1c6);
    (0x1c5, 0x1c5, 1, 0x1c6); (0x1c7, 0x1c7, 1, 0x1c9);
    (0x1c8, 0x1c8, 1, 0x1c9); (0x1ca, 0x1ca, 1, 0x1cc);
    (0x1cb, 0x1db, 2, 0x1cc); (0x1de, 0x1ee, 2, 0x1df);
    (0x1f1, 0x1f1, 1, 0x1f3); (0x1f2, 0x1f4, 2, 0x1f3);
    (0x1f6, 0x1f6, 1, 0x195); (0x1f7, 0x1f7, 1, 0x1bf);
    (0x1f8, 0x21e, 2, 0x1f9); (0x220, 0x220, 1, 0x19e);
    (0x222, 0x232, 2, 0x223); (0x23a, 0x23a, 1, 0x2c65);
    (0x23b, 0x23b, 1, 0x23c); (0x23d, 0x23d, 1, 0x19a);
    (0x23e, 0x23e, 1, 0x2c66); (0x241, 0x241, 1, 0x242);
    (0x243, 0x243, 1, 0x180); (0x244, 0x244, 1, 0x289);
    (0x245, 0x245, 1, 0x28c); (0x246, 0x24e, 2, 0x247);
    (0x370, 0x372, 2, 0x371); (0x376, 0x376, 1, 0x377);
    (0x37f, 0x37f, 1, 0x3f3); (0x386, 0x386, 1, 0x3ac);
    (0x388, 0x38a, 1, 0x3ad); (0x38c, 0x38c, 1, 0x3cc);
    (0x38e, 0x38f, 1, 0x3cd); (0x391, 0x3a1, 1, 0x3b1);
    (0x3a3, 0x3ab, 1, 0x3c3); (0x3cf, 0x3cf, 1, 0x3d7);
    (0x3d8, 0x3ee, 2, 0x3d9); (0x3f4, 0x3f4, 1, 0x3b8);
    (0x3f7, 0x3f7, 1, 0x3f8); (0x3f9, 0x3f9, 1, 0x3f2);
    (0x3fa, 0x3fa, 1, 0x3fb); (0x3fd, 0x3ff, 1, 0x37b);
    (0x400, 0x40f, 1, 0x450); (0x410, 0x42f, 1, 0x430);
    (0x460, 0x480, 2, 0x461); (0x48a, 0x4be, 2, 0x48b);
    (0x4c0, 0x4c0, 1, 0x4cf); (0x4c1, 0x4cd, 2, 0x4c2);
    (0x4d0, 0x52e, 2, 0x4d1); (0x531, 0x556, 1, 0x561);
    (0x10a0, 0x10c5, 1, 0x2d00); (0x10c7, 0x10c7, 1, 0x2d27);
    (0x10cd, 0x10cd, 1, 0x2d2d); (0x13a0, 0x13ef, 1, 0xab70);
    (0x13f0, 0x13f5, 1, 0x13f8); (0x1c90, 0x1cba, 1, 0x10d0);
    (0x1cbd, 0x1cbf, 1, 0x10fd); (0x1e00, 0x1e94, 2, 0x1e01);
    (0x1e9e, 0x1e9e, 1, 0xdf); (0x1ea0, 0x1efe, 2, 0x1ea1);
    (0x1f08, 0x1f0f, 1, 0x1f00); (0x1f18, 0x1f1d, 1, 0x1f10);
    (0x1f28, 0x1f2f, 1, 0x1f20); (0x1f38, 0x1f3f, 1, 0x1f30);
    (0x1f48, 0x1f4d, 1, 0x1f40); (0x1f59, 0x1f5f, 2, 0x1f51);
    (0x1f68, 0x1f6f, 1, 0x1f60); (0x1f88, 0x1f8f, 1, 0x1f80);
    (0x1f98, 0x1f9f, 1, 0x1f90); (0x1fa8, 0x1faf, 1, 0x1fa0);
    (0x1fb8, 0x1fb9, 1, 0x1fb0); (0x1fba, 0x1fbb, 1, 0x1f70);
    (0x1fbc, 0x1fbc, 1, 0x1fb3); (0x1fc8, 0x1fcb, 1, 0x1f72);
    (0x1fcc, 0x1fcc, 1, 0x1fc3); (0x1fd8, 0x1fd9, 1, 0x1fd0);
    (0x1fda, 0x1fdb, 1, 0x1f76); (0x1fe8, 0x1fe9, 1, 0x1fe0);
    (0x1fea, 0x1feb, 1, 0x1f7a); (0x1fec, 0x1fec, 1, 0x1fe5);
    (0x1ff8, 0x1ff9, 1, 0x1f78); (0x1ffa, 0x1ffb, 1, 0x1f7c);
    (0x1ffc, 0x1ffc, 1, 0x1ff3); (0x2126, 0x2126, 1, 0x3c9);
    (0x212a, 0x212a, 1, 0x6b); (0x212b, 0x212b, 1, 0xe5);
    (0x2132, 0x2132, 1, 0x214e); (0x2160, 0x216f, 1, 0x2170);
    (0x2183, 0x2183, 1, 0x2184); (0x24b6, 0x24cf, 1, 0x24d0);
    (0x2c00, 0x2c2f, 1, 0x2c30); (0x2c60, 0x2c60, 1, 0x2c61);
    (0x2c62, 0x2c62, 1, 0x26b); (0x2c63, 0x2c63, 1, 0x1d7d);
    (0x2c64, 0x2c64, 1, 0x27d); (0x2c67, 0x2c6b, 2, 0x2c68);
    (0x2c6d, 0x2c6d, 1, 0x251); (0x2c6e, 0x2c6e, 1, 0x271);
    (0x2c6f, 0x2c6f, 1, 0x250); (0x2c70, 0x2c70, 1, 0x252);
    (0x2c72, 0x2c72, 1, 0x2c73); (0x2c75, 0x2c75, 1, 0x2c76);
    (0x2c7e, 0x2c7f, 1, 0x23f); (0x2c80, 0x2ce2, 2, 0x2c81);
    (0x2ceb, 0x2ced, 2, 0x2cec); (0x2cf2, 0x2cf2, 1, 0x2cf3);
    (0xa640, 0xa66c, 2, 0xa641); (0xa680, 0xa69a, 2, 0xa681);
    (0xa722, 0xa72e, 2, 0xa723); (0xa732, 0xa76e, 2, 0xa733);
    (0xa779, 0xa77b, 2, 0xa77a); (0xa77d, 0xa77d, 1, 0x1d79);
    (0xa77e, 0xa786, 2, 0xa77f); (0xa78b, 0xa78b, 1, 0xa78c);
    (0xa78d, 0xa78d, 1, 0x265); (0xa790, 0xa792, 2, 0xa791);
    (0xa796, 0xa7a8, 2, 0xa797); (0xa7aa, 0xa7aa, 1, 0x266);
    (0xa7ab, 0xa7ab, 1, 0x25c); (0xa7ac, 0xa7ac, 1, 0x261);
    (0xa7ad, 0xa7ad, 1, 0x26c); (0xa7ae, 0xa7ae, 1, 0x26a);
    (0xa7b0, 0xa7b0, 1, 0x29e); (0xa7b1, 0xa7b1, 1, 0x287);
    (0xa7b2, 0xa7b2, 1, 0x29d); (0xa7b3, 0xa7b3, 1, 0xab53);
    (0xa7b4, 0xa7c2, 2, 0xa7b5); (0xa7c4, 0xa7c4, 1, 0xa794);
    (0xa7c5, 0xa7c5, 1, 0x282); (0xa7c6, 0xa7c6, 1, 0x1d8e);
    (0xa7c7, 0xa7c9, 2, 0xa7c8); (0xa7d0, 0xa7d0, 1, 0xa7d1);
    (0xa7d6, 0xa7d8, 2, 0xa7d7); (0xa7f5, 0xa7f5, 1, 0xa7f6);
    (0xff21, 0xff3a, 1, 0xff41); (0x10400, 0x10427, 1, 0x10428);
    (0x104b0, 0x104d3, 1, 0x104d8); (0x10570, 0x1057a, 1, 0x10597);
    (0x1057c, 0x1058a, 1, 0x105a3); (0x1058c, 0x10592, 1, 0x105b3);
    (0x10594, 0x10595, 1, 0x105bb); (0x10c80, 0x10cb2, 1, 0x10cc0);
    (0x118a0, 0x118bf, 1, 0x118c0); (0x16e40, 0x16e5f, 1, 0x16e60);
    (0x1e900, 0x1e921, 1, 0x1e922) ]%N.

(** Simple upper-case mappings, in the same format. *)
Definition upperRuns : list (N * N * N * N) :=
  [ (0x61, 0x7a, 1, 0x41); (0xb5, 0xb5, 1, 0x39c);
    (0xe0, 0xf6, 1, 0xc0); (0xf8, 0xfe, 1, 0xd8);
    (0xff, 0xff, 1, 0x178); (0x101, 0x12f, 2, 0x100);
    (0x131, 0x131, 1, 0x49); (0x133, 0x137, 2, 0x132);
    (0x13a, 0x148, 2, 0x139); (0x14b, 0x177, 2, 0x14a);
    (0x17a, 0x17e, 2, 0x179); (0x17f, 0x17f, 1, 0x53);
    (0x180, 0x180, 1, 0x243); (0x183, 0x185, 2, 0x182);
    (0x188, 0x188, 1, 0x187); (0x18c, 0x18c, 1, 0x18b);
    (0x192, 0x192, 1, 0x191); (0x195, 0x195, 1, 0x1f6);
    (0x199, 0x199, 1, 0x198); (0x19a, 0x19a, 1, 0x23d);
    (0x19e, 0x19e, 1, 0x220); (0x1a1, 0x1a5, 2, 0x1a0);
    (0x1a8, 0x1a8, 1, 0x1a7); (0x1ad, 0x1ad, 1, 0x1ac);
    (0x1b0, 0x1b0, 1, 0x1af); (0x1b4, 0x1b6, 2, 0x1b3);
    (0x1b9, 0x1b9, 1, 0x1b8); (0x1bd, 0x1bd, 1, 0x1bc);
    (0x1bf, 0x1bf, 1, 0x1f7); (0x1c5, 0x1c5, 1, 0x1c4);
    (0x1c6, 0x1c6, 1, 0x1c4); (0x1c8, 0x1c8, 1, 0x1c7);
    (0x1c9, 0x1c9, 1, 0x1c7); (0x1cb, 0x1cb, 1, 0x1ca);
    (0x1cc, 0x1cc, 1, 0x1ca); (0x1ce, 0x1dc, 2, 0x1cd);
    (0x1dd, 0x1dd, 1, 0x18e); (0x1df, 0x1ef, 2, 0x1de);
    (0x1f2, 0x1f2, 1, 0x1f1); (0x1f3, 0x1f3, 1, 0x1f1);
    (0x1f5, 0x1f5, 1, 0x1f4); (0x1f9, 0x21f, 2, 0x1f8);
    (0x223, 0x233, 2, 0x222); (0x23c, 0x23c, 1, 0x23b);
    (0x23f, 0x240, 1, 0x2c7e); (0x242, 0x242, 1, 0x241);
    (0x247, 0x24f, 2, 0x246); (0x250, 0x250, 1, 0x2c6f);
    (0x251, 0x251, 1, 0x2c6d); (0x252, 0x252, 1, 0x2c70);
    (0x253, 0x253, 1, 0x181); (0x254, 0x254, 1, 0x186);
    (0x256, 0x257, 1, 0x189); (0x259, 0x259, 1, 0x18f);
    (0x25b, 0x25b, 1, 0x190); (0x25c, 0x25c, 1, 0xa7ab);
    (0x260, 0x260, 1, 0x193); (0x261, 0x261, 1, 0xa7ac);
    (0x263, 0x263, 1, 0x194); (0x265, 0x265, 1, 0xa78d);
    (0x266, 0x266, 1, 0xa7aa); (0x268, 0x268, 1, 0x197);
    (0x269, 0x269, 1, 0x196); (0x26a, 0x26a, 1, 0xa7ae);
    (0x26b, 0x26b, 1, 0x2c62); (0x26c, 0x26c, 1, 0xa7ad);
    (0x26f, 0x26f, 1, 0x19c); (0x271, 0x271, 1, 0x2c6e);
    (0x272, 0x272, 1, 0x19d); (0x275, 0x275, 1, 0x19f);
    (0x27d, 0x27d, 1, 0x2c64); (0x280, 0x280, 1, 0x1a6);
    (0x282, 0x282, 1, 0xa7c5); (0x283, 0x283, 1, 0x1a9);
    (0x287, 0x287, 1, 0xa7b1); (0x288, 0x288, 1, 0x1ae);
    (0x289, 0x289, 1, 0x244); (0x28a, 0x28b, 1, 0x1b1);
    (0x28c, 0x28c, 1, 0x245); (0x292, 0x292, 1, 0x1b7);
    (0x29d, 0x29d, 1, 0xa7b2); (0x29e, 0x29e, 1, 0xa7b0);
    (0x345, 0x345, 1, 0x399); (0x371, 0x373, 2, 0x370);
    (0x377, 0x377, 1, 0x376); (0x37b, 0x37d, 1, 0x3fd);
    (0x3ac, 0x3ac, 1, 0x386); (0x3ad, 0x3af, 1, 0x388);
    (0x3b1, 0x3c1, 1, 0x391); (0x3c2, 0x3c2, 1, 0x3a3);
    (0x3c3, 0x3cb, 1, 0x3a3); (0x3cc, 0x3cc, 1, 0x38c);
    (0x3cd, 0x3ce, 1, 0x38e); (0x3d0, 0x3d0, 1, 0x392);
    (0x3d1, 0x3d1, 1, 0x398); (0x3d5, 0x3d5, 1, 0x3a6);
    (0x3d6, 0x3d6, 1, 0x3a0); (0x3d7, 0x3d7, 1, 0x3cf);
    (0x3d9, 0x3ef, 2, 0x3d8); (0x3f0, 0x3f0, 1, 0x39a);
    (0x3f1, 0x3f1, 1, 0x3a1); (0x3f2, 0x3f2, 1, 0x3f9);
    (0x3f3, 0x3f3, 1, 0x37f); (0x3f5, 0x3f5, 1, 0x395);
    (0x3f8, 0x3f8, 1, 0x3f7); (0x3fb, 0x3fb, 1, 0x3fa);
    (0x430, 0x44f, 1, 0x410); (0x450, 0x45f, 1, 0x400);
    (0x461, 0x481, 2, 0x460); (0x48b, 0x4bf, 2, 0x48a);
    (0x4c2, 0x4ce, 2, 0x4c1); (0x4cf, 0x4cf, 1, 0x4c0);
    (0x4d1, 0x52f, 2, 0x4d0); (0x561, 0x586, 1, 0x531);
    (0x10d0, 0x10fa, 1, 0x1c90); (0x10fd, 0x10ff, 1, 0x1cbd);
    (0x13f8, 0x13fd, 1, 0x13f0); (0x1c80, 0x1c80, 1, 0x412);
    (0x1c81, 0x1c81, 1, 0x414); (0x1c82, 0x1c82, 1, 0x41e);
    (0x1c83, 0x1c84, 1, 0x421); (0x1c85, 0x1c85, 1, 0x422);
    (0x1c86, 0x1c86, 1, 0x42a); (0x1c87, 0x1c87, 1, 0x462);
    (0x1c88, 0x1c88, 1, 0xa64a); (0x1d79, 0x1d79, 1, 0xa77d);
    (0x1d7d, 0x1d7d, 1, 0x2c63); (0x1d8e, 0x1d8e, 1, 0xa7c6);
    (0x1e01, 0x1e95, 2, 0x1e00); (0x1e9b, 0x1e9b, 1, 0x1e60);
    (0x1ea1, 0x1eff, 2, 0x1ea0); (0x1f00, 0x1f07, 1, 0x1f08);
    (0x1f10, 0x1f15, 1, 0x1f18); (0x1f20, 0x1f27, 1, 0x1f28);
    (0x1f30, 0x1f37, 1, 0x1f38); (0x1f40, 0x1f45, 1, 0x1f48);
    (0x1f51, 0x1f57, 2, 0x1f59); (0x1f60, 0x1f67, 1, 0x1f68);
    (0x1f70, 0x1f71, 1, 0x1fba); (0x1f72, 0x1f75, 1, 0x1fc8);
    (0x1f76, 0x1f77, 1, 0x1fda); (0x1f78, 0x1f79, 1, 0x1ff8);
    (0x1f7a, 0x1f7b, 1, 0x1fea); (0x1f7c, 0x1f7d, 1, 0x1ffa);
    (0x1fb0, 0x1fb1, 1, 0x1fb8); (0x1fbe, 0x1fbe, 1, 0x399);
    (0x1fd0, 0x1fd1, 1, 0x1fd8); (0x1fe0, 0x1fe1, 1, 0x1fe8);
    (0x1fe5, 0x1fe5, 1, 0x1fec); (0x214e, 0x214e, 1, 0x2132);
    (0x2170, 0x217f, 1, 0x2160); (0x2184, 0x2184, 1, 0x2183);
    (0x24d0, 0x24e9, 1, 0x24b6); (0x2c30, 0x2c5f, 1, 0x2c00);
    (0x2c61, 0x2c61, 1, 0x2c60); (0x2c65, 0x2c65, 1, 0x23a);
    (0x2c66, 0x2c66, 1, 0x23e); (0x2c68, 0x2c6c, 2, 0x2c67);
    (0x2c73, 0x2c73, 1, 0x2c72); (0x2c76, 0x2c76, 1, 0x2c75);
    (0x2c81, 0x2ce3, 2, 0x2c80); (0x2cec, 0x2cee, 2, 0x2ceb);
    (0x2cf3, 0x2cf3, 1, 0x2cf2); (0x2d00, 0x2d25, 1, 0x10a0);
    (0x2d27, 0x2d27, 1, 0x10c7); (0x2d2d, 0x2d2d, 1, 0x10cd);
    (0xa641, 0xa66d, 2, 0xa640); (0xa681, 0xa69b, 2, 0xa680);
    (0xa723, 0xa72f, 2, 0xa722); (0xa733, 0xa76f, 2, 0xa732);
    (0xa77a, 0xa77c, 2, 0xa779); (0xa77f, 0xa787, 2, 0xa77e);
    (0xa78c, 0xa78c, 1, 0xa78b); (0xa791, 0xa793, 2, 0xa790);
    (0xa794, 0xa794, 1, 0xa7c4); (0xa797, 0xa7a9, 2, 0xa796);
    (0xa7b5, 0xa7c3, 2, 0xa7b4); (0xa7c8, 0xa7ca, 2, 0xa7c7);
    (0xa7d1, 0xa7d1, 1, 0xa7d0); (0xa7d7, 0xa7d9, 2, 0xa7d6);
    (0xa7f6, 0xa7f6, 1, 0xa7f5); (0xab53, 0xab53, 1, 0xa7b3);
    (0xab70, 0xabbf, 1, 0x13a0); (0xff41, 0xff5a, 1, 0xff21);
    (0x10428, 0x1044f, 1, 0x10400); (0x104d8, 0x104fb, 1, 0x104b0);
    (0x10597, 0x105a1, 1, 0x10570); (0x105a3, 0x105b1, 1, 0x1057c);
    (0x105b3, 0x105b9, 1, 0x1058c); (0x105bb, 0x105bc, 1, 0x10594);
    (0x10cc0, 0x10cf2, 1, 0x10c80); (0x118c0, 0x118df, 1, 0x118a0);
    (0x16e60, 0x16e7f, 1, 0x16e40); (0x1e922, 0x1e943, 1, 0x1e900) ]%N.

(** Code points whose upper-case form is more than one code point. *)
Definition upperSpecial : list (N * list N) :=
  [ (0xdf, [0x53; 0x53]); (0x149, [0x2bc; 0x4e]);
    (0x1f0, [0x4a; 0x30c]); (0x390, [0x399; 0x308; 0x301]);
    (0x3b0, [0x3a5; 0x308; 0x301]); (0x587, [0x535; 0x552]);
    (0x1e96, [0x48; 0x331]); (0x1e97, [0x54; 0x308]);
    (0x1e98, [0x57; 0x30a]); (0x1e99, [0x59; 0x30a]);
    (0x1e9a, [0x41; 0x2be]); (0x1f50, [0x3a5; 0x313]);
    (0x1f52, [0x3a5; 0x313; 0x300]); (0x1f54, [0x3a5; 0x313; 0x301]);
    (0x1f56, [0x3a5; 0x313; 0x342]); (0x1f80, [0x1f08; 0x399]);
    (0x1f81, [0x1f09; 0x399]); (0x1f82, [0x1f0a; 0x399]);
    (0x1f83, [0x1f0b; 0x399]); (0x1f84, [0x1f0c; 0x399]);
    (0x1f85, [0x1f0d; 0x399]); (0x1f86, [0x1f0e; 0x399]);
    (0x1f87, [0x1f0f; 0x399]); (0x1f88, [0x1f08; 0x399]);
    (0x1f89, [0x1f09; 0x399]); (0x1f8a, [0x1f0a; 0x399]);
    (0x1f8b, [0x1f0b; 0x399]); (0x1f8c, [0x1f0c; 0x399]);
    (0x1f8d, [0x1f0d; 0x399]); (0x1f8e, [0x1f0e; 0x399]);
    (0x1f8f, [0x1f0f; 0x399]); (0x1f90, [0x1f28; 0x399]);
    (0x1f91, [0x1f29; 0x399]); (0x1f92, [0x1f2a; 0x399]);
    (0x1f93, [0x1f2b; 0x399]); (0x1f94, [0x1f2c; 0x399]);
    (0x1f95, [0x1f2d; 0x399]); (0x1f96, [0x1f2e; 0x399]);
    (0x1f97, [0x1f2f; 0x399]); (0x1f98, [0x1f28; 0x399]);
    (0x1f99, [0x1f29; 0x399]); (0x1f9a, [0x1f2a; 0x399]);
    (0x1f9b, [0x1f2b; 0x399]); (0x1f9c, [0x1f2c; 0x399]);
    (0x1f9d, [0x1f2d; 0x399]); (0x1f9e, [0x1f2e; 0x399]);
    (0x1f9f, [0x1f2f; 0x399]); (0x1fa0, [0x1f68; 0x399]);
    (0x1fa1, [0x1f69; 0x399]); (0x1fa2, [0x1f6a; 0x399]);
    (0x1fa3, [0x1f6b; 0x399]); (0x1fa4, [0x1f6c; 0x399]);
    (0x1fa5, [0x1f6d; 0x399]); (0x1fa6, [0x1f6e; 0x399]);
    (0x1fa7, [0x1f6f; 0x399]); (0x1fa8, [0x1f68; 0x399]);
    (0x1fa9, [0x1f69; 0x399]); (0x1faa, [0x1f6a; 0x399]);
    (0x1fab, [0x1f6b; 0x399]); (0x1fac, [0x1f6c; 0x399]);
    (0x1fad, [0x1f6d; 0x399]); (0x1fae, [0x1f6e; 0x399]);
    (0x1faf, [0x1f6f; 0x399]); (0x1fb2, [0x1fba; 0x399]);
    (0x1fb3, [0x391; 0x399]); (0x1fb4, [0x386; 0x399]);
    (0x1fb6, [0x391; 0x342]); (0x1fb7, [0x391; 0x342; 0x399]);
    (0x1fbc, [0x391; 0x399]); (0x1fc2, [0x1fca; 0x399]);
    (0x1fc3, [0x397; 0x399]); (0x1fc4, [0x389; 0x399]);
    (0x1fc6, [0x397; 0x342]); (0x1fc7, [0x397; 0x342; 0x399]);
    (0x1fcc, [0x397; 0x399]); (0x1fd2, [0x399; 0x308; 0x300]);
    (0x1fd3, [0x399; 0x308; 0x301]); (0x1fd6, [0x399; 0x342]);
    (0x1fd7, [0x399; 0x308; 0x342]); (0x1fe2, [0x3a5; 0x308; 0x300]);
    (0x1fe3, [0x3a5; 0x308; 0x301]); (0x1fe4, [0x3a1; 0x313]);
    (0x1fe6, [0x3a5; 0x342]); (0x1fe7, [0x3a5; 0x308; 0x342]);
    (0x1ff2, [0x1ffa; 0x399]); (0x1ff3, [0x3a9; 0x399]);
    (0x1ff4, [0x38f; 0x399]); (0x1ff6, [0x3a9; 0x342]);
    (0x1ff7, [0x3a9; 0x342; 0x399]); (0x1ffc, [0x3a9; 0x399]);
    (0xfb00, [0x46; 0x46]); (0xfb01, [0x46; 0x49]);
    (0xfb02, [0x46; 0x4c]); (0xfb03, [0x46; 0x46; 0x49]);
    (0xfb04, [0x46; 0x46; 0x4c]); (0xfb05, [0x53; 0x54]);
    (0xfb06, [0x53; 0x54]); (0xfb13, [0x544; 0x546]);
    (0xfb14, [0x544; 0x535]); (0xfb15, [0x544; 0x53b]);
    (0xfb16, [0x54e; 0x546]); (0xfb17, [0x544; 0x53d]) ]%N.

(** The code points with the property Cased. *)
Definition casedRanges : list (N * N) :=
  [ (0x41, 0x5a); (0x61, 0x7a); (0xaa, 0xaa); (0xb5, 0xb5);
    (0xba, 0xba); (0xc0, 0xd6); (0xd8, 0xf6); (0xf8, 0x1ba);
    (0x1bc, 0x1bf); (0x1c4, 0x293); (0x295, 0x2b8); (0x2c0, 0x2c1);
    (0x2e0, 0x2e4); (0x345, 0x345); (0x370, 0x373); (0x376, 0x377);
    (0x37a, 0x37d); (0x37f, 0x37f); (0x386, 0x386); (0x388, 0x38a);
    (0x38c, 0x38c); (0x38e, 0x3a1); (0x3a3, 0x3f5); (0x3f7, 0x481);
    (0x48a, 0x52f); (0x531, 0x556); (0x560, 0x588); (0x10a0, 0x10c5);
    (0x10c7, 0x10c7); (0x10cd, 0x10cd); (0x10d0, 0x10fa); (0x10fd, 0x10ff);
    (0x13a0, 0x13f5); (0x13f8, 0x13fd); (0x1c80, 0x1c88); (0x1c90, 0x1cba);
    (0x1cbd, 0x1cbf); (0x1d00, 0x1dbf); (0x1e00, 0x1f15); (0x1f18, 0x1f1d);
    (0x1f20, 0x1f45); (0x1f48, 0x1f4d); (0x1f50, 0x1f57); (0x1f59, 0x1f59);
    (0x1f5b, 0x1f5b); (0x1f5d, 0x1f5d); (0x1f5f, 0x1f7d); (0x1f80, 0x1fb4);
    (0x1fb6, 0x1fbc); (0x1fbe, 0x1fbe); (0x1fc2, 0x1fc4); (0x1fc6, 0x1fcc);
    (0x1fd0, 0x1fd3); (0x1fd6, 0x1fdb); (0x1fe0, 0x1fec); (0x1ff2, 0x1ff4);
    (0x1ff6, 0x1ffc); (0x2071, 0x2071); (0x207f, 0x207f); (0x2090, 0x209c);
    (0x2102, 0x2102); (0x2107, 0x2107); (0x210a, 0x2113); (0x2115, 0x2115);
    (0x2119, 0x211d); (0x2124, 0x2124); (0x2126, 0x2126); (0x2128, 0x2128);
    (0x212a, 0x212d); (0x212f, 0x2134); (0x2139, 0x2139); (0x213c, 0x213f);
    (0x2145, 0x2149); (0x214e, 0x214e); (0x2160, 0x217f); (0x2183, 0x2184);
    (0x24b6, 0x24e9); (0x2c00, 0x2ce4); (0x2ceb, 0x2cee); (0x2cf2, 0x2cf3);
    (0x2d00, 0x2d25); (0x2d27, 0x2d27); (0x2d2d, 0x2d2d); (0xa640, 0xa66d);
    (0xa680, 0xa69d); (0xa722, 0xa787); (0xa78b, 0xa78e); (0xa790, 0xa7ca);
    (0xa7d0, 0xa7d1); (0xa7d3, 0xa7d3); (0xa7d5, 0xa7d9); (0xa7f5, 0xa7f6);
    (0xa7f8, 0xa7fa); (0xab30, 0xab5a); (0xab5c, 0xab68); (0xab70, 0xabbf);
    (0xfb00, 0xfb06); (0xfb13, 0xfb17); (0xff21, 0xff3a); (0xff41, 0xff5a);
    (0x10400, 0x1044f); (0x104b0, 0x104d3); (0x104d8, 0x104fb); (0x10570, 0x1057a);
    (0x1057c, 0x1058a); (0x1058c, 0x10592); (0x10594, 0x10595); (0x10597, 0x105a1);
    (0x105a3, 0x105b1); (0x105b3, 0x105b9); (0x105bb, 0x105bc); (0x10780, 0x10780);
    (0x10783, 0x10785); (0x10787, 0x107b0); (0x107b2, 0x107ba); (0x10c80, 0x10cb2);
    (0x10cc0, 0x10cf2); (0x118a0, 0x118df); (0x16e40, 0x16e7f); (0x1d400, 0x1d454);
    (0x1d456, 0x1d49c); (0x1d49e, 0x1d49f); (0x1d4a2, 0x1d4a2); (0x1d4a5, 0x1d4a6);
    (0x1d4a9, 0x1d4ac); (0x1d4ae, 0x1d4b9); (0x1d4bb, 0x1d4bb); (0x1d4bd, 0x1d4c3);
    (0x1d4c5, 0x1d505); (0x1d507, 0x1d50a); (0x1d50d, 0x1d514); (0x1d516, 0x1d51c);
    (0x1d51e, 0x1d539); (0x1d53b, 0x1d53e); (0x1d540, 0x1d544); (0x1d546, 0x1d546);
    (0x1d54a, 0x1d550); (0x1d552, 0x1d6a5); (0x1d6a8, 0x1d6c0); (0x1d6c2, 0x1d6da);
    (0x1d6dc, 0x1d6fa); (0x1d6fc, 0x1d714); (0x1d716, 0x1d734); (0x1d736, 0x1d74e);
    (0x1d750, 0x1d76e); (0x1d770, 0x1d788); (0x1d78a, 0x1d7a8); (0x1d7aa, 0x1d7c2);
    (0x1d7c4, 0x1d7cb); (0x1df00, 0x1df09); (0x1df0b, 0x1df1e); (0x1e900, 0x1e943);
    (0x1f130, 0x1f149); (0x1f150, 0x1f169); (0x1f170, 0x1f189) ]%N.

(** The code points with the property Case_Ignorable. *)
Definition caseIgnorableRanges : list (N * N) :=
  [ (0x27, 0x27); (0x2e, 0x2e); (0x3a, 0x3a); (0x5e, 0x5e);
    (0x60, 0x60); (0xa8, 0xa8); (0xad, 0xad); (0xaf, 0xaf);
    (0xb4, 0xb4); (0xb7, 0xb8); (0x2b0, 0x36f); (0x374, 0x375);
    (0x37a, 0x37a); (0x384, 0x385); (0x387, 0x387); (0x483, 0x489);
    (0x559, 0x559); (0x55f, 0x55f); (0x591, 0x5bd); (0x5bf, 0x5bf);
    (0x5c1, 0x5c2); (0x5c4, 0x5c5); (0x5c7, 0x5c7); (0x5f4, 0x5f4);
    (0x600, 0x605); (0x610, 0x61a); (0x61c, 0x61c); (0x640, 0x640);
    (0x64b, 0x65f); (0x670, 0x670); (0x6d6, 0x6dd); (0x6df, 0x6e8);
    (0x6ea, 0x6ed); (0x70f, 0x70f); (0x711, 0x711); (0x730, 0x74a);
    (0x7a6, 0x7b0); (0x7eb, 0x7f5); (0x7fa, 0x7fa); (0x7fd, 0x7fd);
    (0x816, 0x82d); (0x859, 0x85b); (0x888, 0x888); (0x890, 0x891);
    (0x898, 0x89f); (0x8c9, 0x902); (0x93a, 0x93a); (0x93c, 0x93c);
    (0x941, 0x948); (0x94d, 0x94d); (0x951, 0x957); (0x962, 0x963);
    (0x971, 0x971); (0x981, 0x981); (0x9bc, 0x9bc); (0x9c1, 0x9c4);
    (0x9cd, 0x9cd); (0x9e2, 0x9e3); (0x9fe, 0x9fe); (0xa01, 0xa02);
    (0xa3c, 0xa3c); (0xa41, 0xa42); (0xa47, 0xa48); (0xa4b, 0xa4d);
    (0xa51, 0xa51); (0xa70, 0xa71); (0xa75, 0xa75); (0xa81, 0xa82);
    (0xabc, 0xabc); (0xac1, 0xac5); (0xac7, 0xac8); (0xacd, 0xacd);
    (0xae2, 0xae3); (0xafa, 0xaff); (0xb01, 0xb01); (0xb3c, 0xb3c);
    (0xb3f, 0xb3f); (0xb41, 0xb44); (0xb4d, 0xb4d); (0xb55, 0xb56);
    (0xb62, 0xb63); (0xb82, 0xb82); (0xbc0, 0xbc0); (0xbcd, 0xbcd);
    (0xc00, 0xc00); (0xc04, 0xc04); (0xc3c, 0xc3c); (0xc3e, 0xc40);
    (0xc46, 0xc48); (0xc4a, 0xc4d); (0xc55, 0xc56); (0xc62, 0xc63);
    (0xc81, 0xc81); (0xcbc, 0xcbc); (0xcbf, 0xcbf); (0xcc6, 0xcc6);
    (0xccc, 0xccd); (0xce2, 0xce3); (0xd00, 0xd01); (0xd3b, 0xd3c);
    (0xd41, 0xd44); (0xd4d, 0xd4d); (0xd62, 0xd63); (0xd81, 0xd81);
    (0xdca, 0xdca); (0xdd2, 0xdd4); (0xdd6, 0xdd6); (0xe31, 0xe31);
    (0xe34, 0xe3a); (0xe46, 0xe4e); (0xeb1, 0xeb1); (0xeb4, 0xebc);
    (0xec6, 0xec6); (0xec8, 0xecd); (0xf18, 0xf19); (0xf35, 0xf35);
    (0xf37, 0xf37); (0xf39, 0xf39); (0xf71, 0xf7e); (0xf80, 0xf84);
    (0xf86, 0xf87); (0xf8d, 0xf97); (0xf99, 0xfbc); (0xfc6, 0xfc6);
    (0x102d, 0x1030); (0x1032, 0x1037); (0x1039, 0x103a); (0x103d, 0x103e);
    (0x1058, 0x1059); (0x105e, 0x1060); (0x1071, 0x1074); (0x1082, 0x1082);
    (0x1085, 0x1086); (0x108d, 0x108d); (0x109d, 0x109d); (0x10fc, 0x10fc);
    (0x135d, 0x135f); (0x1712, 0x1714); (0x1732, 0x1733); (0x1752, 0x1753);
    (0x1772, 0x1773); (0x17b4, 0x17b5); (0x17b7, 0x17bd); (0x17c6, 0x17c6);
    (0x17c9, 0x17d3); (0x17d7, 0x17d7); (0x17dd, 0x17dd); (0x180b, 0x180f);
    (0x1843, 0x1843); (0x1885, 0x1886); (0x18a9, 0x18a9); (0x1920, 0x1922);
    (0x1927, 0x1928); (0x1932, 0x1932); (0x1939, 0x193b); (0x1a17, 0x1a18);
    (0x1a1b, 0x1a1b); (0x1a56, 0x1a56); (0x1a58, 0x1a5e); (0x1a60, 0x1a60);
    (0x1a62, 0x1a62); (0x1a65, 0x1a6c); (0x1a73, 0x1a7c); (0x1a7f, 0x1a7f);
    (0x1aa7, 0x1aa7); (0x1ab0, 0x1ace); (0x1b00, 0x1b03); (0x1b34, 0x1b34);
    (0x1b36, 0x1b3a); (0x1b3c, 0x1b3c); (0x1b42, 0x1b42); (0x1b6b, 0x1b73);
    (0x1b80, 0x1b81); (0x1ba2, 0x1ba5); (0x1ba8, 0x1ba9); (0x1bab, 0x1bad);
    (0x1be6, 0x1be6); (0x1be8, 0x1be9); (0x1bed, 0x1bed); (0x1bef, 0x1bf1);
    (0x1c2c, 0x1c33); (0x1c36, 0x1c37); (0x1c78, 0x1c7d); (0x1cd0, 0x1cd2);
    (0x1cd4, 0x1ce0); (0x1ce2, 0x1ce8); (0x1ced, 0x1ced); (0x1cf4, 0x1cf4);
    (0x1cf8, 0x1cf9); (0x1d2c, 0x1d6a); (0x1d78, 0x1d78); (0x1d9b, 0x1dff);
    (0x1fbd, 0x1fbd); (0x1fbf, 0x1fc1); (0x1fcd, 0x1fcf); (0x1fdd, 0x1fdf);
    (0x1fed, 0x1fef); (0x1ffd, 0x1ffe); (0x200b, 0x200f); (0x2018, 0x2019);
    (0x2024, 0x2024); (0x2027, 0x2027); (0x202a, 0x202e); (0x2060, 0x2064);
    (0x2066, 0x206f); (0x2071, 0x2071); (0x207f, 0x207f); (0x2090, 0x209c);
    (0x20d0, 0x20f0); (0x2c7c, 0x2c7d); (0x2cef, 0x2cf1); (0x2d6f, 0x2d6f);
    (0x2d7f, 0x2d7f); (0x2de0, 0x2dff); (0x2e2f, 0x2e2f); (0x3005, 0x3005);
    (0x302a, 0x302d); (0x3031, 0x3035); (0x303b, 0x303b); (0x3099, 0x309e);
    (0x30fc, 0x30fe); (0xa015, 0xa015); (0xa4f8, 0xa4fd); (0xa60c, 0xa60c);
    (0xa66f, 0xa672); (0xa674, 0xa67d); (0xa67f, 0xa67f); (0xa69c, 0xa69f);
    (0xa6f0, 0xa6f1); (0xa700, 0xa721); (0xa770, 0xa770); (0xa788, 0xa78a);
    (0xa7f2, 0xa7f4); (0xa7f8, 0xa7f9); (0xa802, 0xa802); (0xa806, 0xa806);
    (0xa80b, 0xa80b); (0xa825, 0xa826); (0xa82c, 0xa82c); (0xa8c4, 0xa8c5);
    (0xa8e0, 0xa8f1); (0xa8ff, 0xa8ff); (0xa926, 0xa92d); (0xa947, 0xa951);
    (0xa980, 0xa982); (0xa9b3, 0xa9b3); (0xa9b6, 0xa9b9); (0xa9bc, 0xa9bd);
    (0xa9cf, 0xa9cf); (0xa9e5, 0xa9e6); (0xaa29, 0xaa2e); (0xaa31, 0xaa32);
    (0xaa35, 0xaa36); (0xaa43, 0xaa43); (0xaa4c, 0xaa4c); (0xaa70, 0xaa70);
    (0xaa7c, 0xaa7c); (0xaab0, 0xaab0); (0xaab2, 0xaab4); (0xaab7, 0xaab8);
    (0xaabe, 0xaabf); (0xaac1, 0xaac1); (0xaadd, 0xaadd); (0xaaec, 0xaaed);
    (0xaaf3, 0xaaf4); (0xaaf6, 0xaaf6); (0xab5b, 0xab5f); (0xab69, 0xab6b);
    (0xabe5, 0xabe5); (0xabe8, 0xabe8); (0xabed, 0xabed); (0xfb1e, 0xfb1e);
    (0xfbb2, 0xfbc2); (0xfe00, 0xfe0f); (0xfe13, 0xfe13); (0xfe20, 0xfe2f);
    (0xfe52, 0xfe52); (0xfe55, 0xfe55); (0xfeff, 0xfeff); (0xff07, 0xff07);
    (0xff0e, 0xff0e); (0xff1a, 0xff1a); (0xff3e, 0xff3e); (0xff40, 0xff40);
    (0xff70, 0xff70); (0xff9e, 0xff9f); (0xffe3, 0xffe3); (0xfff9, 0xfffb);
    (0x101fd, 0x101fd); (0x102e0, 0x102e0); (0x10376, 0x1037a); (0x10780, 0x10785);
    (0x10787, 0x107b0); (0x107b2, 0x107ba); (0x10a01, 0x10a03); (0x10a05, 0x10a06);
    (0x10a0c, 0x10a0f); (0x10a38, 0x10a3a); (0x10a3f, 0x10a3f); (0x10ae5, 0x10ae6);
    (0x10d24, 0x10d27); (0x10eab, 0x10eac); (0x10f46, 0x10f50); (0x10f82, 0x10f85);
    (0x11001, 0x11001); (0x11038, 0x11046); (0x11070, 0x11070); (0x11073, 0x11074);
    (0x1107f, 0x11081); (0x110b3, 0x110b6); (0x110b9, 0x110ba); (0x110bd, 0x110bd);
    (0x110c2, 0x110c2); (0x110cd, 0x110cd); (0x11100, 0x11102); (0x11127, 0x1112b);
    (0x1112d, 0x11134); (0x11173, 0x11173); (0x11180, 0x11181); (0x111b6, 0x111be);
    (0x111c9, 0x111cc); (0x111cf, 0x111cf); (0x1122f, 0x11231); (0x11234, 0x11234);
    (0x11236, 0x11237); (0x1123e, 0x1123e); (0x112df, 0x112df); (0x112e3, 0x112ea);
    (0x11300, 0x11301); (0x1133b, 0x1133c); (0x11340, 0x11340); (0x11366, 0x1136c);
    (0x11370, 0x11374); (0x11438, 0x1143f); (0x11442, 0x11444); (0x11446, 0x11446);
    (0x1145e, 0x1145e); (0x114b3, 0x114b8); (0x114ba, 0x114ba); (0x114bf, 0x114c0);
    (0x114c2, 0x114c3); (0x115b2, 0x115b5); (0x115bc, 0x115bd); (0x115bf, 0x115c0);
    (0x115dc, 0x115dd); (0x11633, 0x1163a); (0x1163d, 0x1163d); (0x1163f, 0x11640);
    (0x116ab, 0x116ab); (0x116ad, 0x116ad); (0x116b0, 0x116b5); (0x116b7, 0x116b7);
    (0x1171d, 0x1171f); (0x11722, 0x11725); (0x11727, 0x1172b); (0x1182f, 0x11837);
    (0x11839, 0x1183a); (0x1193b, 0x1193c); (0x1193e, 0x1193e); (0x11943, 0x11943);
    (0x119d4, 0x119d7); (0x119da, 0x119db); (0x119e0, 0x119e0); (0x11a01, 0x11a0a);
    (0x11a33, 0x11a38); (0x11a3b, 0x11a3e); (0x11a47, 0x11a47); (0x11a51, 0x11a56);
    (0x11a59, 0x11a5b); (0x11a8a, 0x11a96); (0x11a98, 0x11a99); (0x11c30, 0x11c36);
    (0x11c38, 0x11c3d); (0x11c3f, 0x11c3f); (0x11c92, 0x11ca7); (0x11caa, 0x11cb0);
    (0x11cb2, 0x11cb3); (0x11cb5, 0x11cb6); (0x11d31, 0x11d36); (0x11d3a, 0x11d3a);
    (0x11d3c, 0x11d3d); (0x11d3f, 0x11d45); (0x11d47, 0x11d47); (0x11d90, 0x11d91);
    (0x11d95, 0x11d95); (0x11d97, 0x11d97); (0x11ef3, 0x11ef4); (0x13430, 0x13438);
    (0x16af0, 0x16af4); (0x16b30, 0x16b36); (0x16b40, 0x16b43); (0x16f4f, 0x16f4f);
    (0x16f8f, 0x16f9f); (0x16fe0, 0x16fe1); (0x16fe3, 0x16fe4); (0x1aff0, 0x1aff3);
    (0x1aff5, 0x1affb); (0x1affd, 0x1affe); (0x1bc9d, 0x1bc9e); (0x1bca0, 0x1bca3);
    (0x1cf00, 0x1cf2d); (0x1cf30, 0x1cf46); (0x1d167, 0x1d169); (0x1d173, 0x1d182);
    (0x1d185, 0x1d18b); (0x1d1aa, 0x1d1ad); (0x1d242, 0x1d244); (0x1da00, 0x1da36);
    (0x1da3b, 0x1da6c); (0x1da75, 0x1da75); (0x1da84, 0x1da84); (0x1da9b, 0x1da9f);
    (0x1daa1, 0x1daaf); (0x1e000, 0x1e006); (0x1e008, 0x1e018); (0x1e01b, 0x1e021);
    (0x1e023, 0x1e024); (0x1e026, 0x1e02a); (0x1e130, 0x1e13d); (0x1e2ae, 0x1e2ae);
    (0x1e2ec, 0x1e2ef); (0x1e8d0, 0x1e8d6); (0x1e944, 0x1e94b); (0x1f3fb, 0x1f3ff);
    (0xe0001, 0xe0001); (0xe0020, 0xe007f); (0xe0100, 0xe01ef) ]%N.

Fixpoint mapRuns (runs : list (N * N * N * N)) (n : N) : option N :=
  match runs with
  | [] => None
  | (first, last, step, target) :: rest =>
      if (first <=? n) && (n <=? last) && ((n - first) mod step =? 0)
      then Some (target + (n - first))
      else mapRuns rest n
  end.

Fixpoint inRanges (ranges : list (N * N)) (n : N) : bool :=
  match ranges with
  | [] => false
  | (first, last) :: rest =>
      if (first <=? n) && (n <=? last) then true else inRanges rest n
  end.

Fixpoint special (table : list (N * list N)) (n : N) : option (list N) :=
  match table with
  | [] => None
  | (m, out) :: rest => if m =? n then Some out else special rest n
  end.

Definition cased (c : Char) : bool :=
  match c with
  | CodePoint n => inRanges casedRanges n
  | Stray _ => false
  end.

Definition caseIgnorable (c : Char) : bool :=
  match c with
  | CodePoint n => inRanges caseIgnorableRanges n
  | Stray _ => false
  end.

(** The lower-case form of a code point out of context; U+0130 is the one
    code point whose form is longer than one code point. *)
Definition lowerCodePoint (n : N) : list N :=
  if n =? 0x130 then [0x69; 0x307]
  else match mapRuns lowerRuns n with
       | Some m => [m]
       | None => [n]
       end.

Definition upperCodePoint (n : N) : list N :=
  match special upperSpecial n with
  | Some out => out
  | None =>
      match mapRuns upperRuns n with
      | Some m => [m]
      | None => [n]
      end
  end.

(** What follows is, after any case-ignorable characters, a cased
    letter. *)
Fixpoint beforeCased (l : list Char) : bool :=
  match l with
  | [] => false
  | c :: rest => if caseIgnorable c then beforeCased rest else cased c
  end.

(** The state carried along a string: whether what precedes is a cased
    letter followed by case-ignorable characters only. *)
Definition step (afterCased : bool) (c : Char) : bool :=
  if caseIgnorable c then afterCased else cased c.

(** The lower-case form of one character in its context.  A capital
    sigma (U+03A3) becomes a final sigma (U+03C2) when it ends a word,
    and a small sigma (U+03C3) otherwise. *)
Definition lowerChar (afterCased : bool) (c : Char) (rest : list Char)
  : list Char :=
  match c with
  | CodePoint n =>
      if n =? 0x3a3 then
        if afterCased && negb (beforeCased rest)
        then [CodePoint 0x3c2]
        else [CodePoint 0x3c3]
      else map CodePoint (lowerCodePoint n)
  | Stray b => [Stray b]
  end.

Fixpoint lowerChars (afterCased : bool) (l : list Char) : list Char :=
  match l with
  | [] => []
  | c :: rest =>
      (lowerChar afterCased c rest
       ++ lowerChars (step afterCased c) rest)%list
  end.

Definition upperChar (c : Char) : list Char :=
  match c with
  | CodePoint n => map CodePoint (upperCodePoint n)
  | Stray b => [Stray b]
  end.

End Unicode.

(** ** The JavaScript built-ins the service calls *)

Module JS.

Definition number : Set := float.

(** ECMAScript IsLessThan on numbers: [None] is [undefined], the answer
    when an operand is NaN. *)
Definition IsLessThan (x y : number) : option bool :=
  match SFcompare (Prim2SF x) (Prim2SF y) with
  | Some Lt => Some true
  | Some _ => Some false
  | None => None
  end.

(** [x >= y]: IsLessThan(x, y) is neither [true] nor [undefined]. *)
Definition ge (x y : number) : bool :=
  match IsLessThan x y with
  | Some false => true
  | _ => false
  end.

(** [x <= y]: IsLessThan(y, x) is neither [true] nor [undefined]. *)
Definition le (x y : number) : bool :=
  match IsLessThan y x with
  | Some false => true
  | _ => false
  end.

(** [x > y]: IsLessThan(y, x) is [true]. *)
Definition gt (x y : number) : bool :=
  match IsLessThan y x with
  | Some true => true
  | _ => false
  end.

(** A string is truthy unless it is empty. *)
Definition truthy (s : string) : bool :=
  match s with
  | EmptyString => false
  | String _ _ => true
  end.

(** The letters A-Z and a-z, and the other case of each. *)
Definition isUpper (c : ascii) : bool :=
  let n := nat_of_ascii c in ((65 <=? n) && (n <=? 90))%nat.

Definition isLower (c : ascii) : bool :=
  let n := nat_of_ascii c in ((97 <=? n) && (n <=? 122))%nat.

Definition lowerUnit (c : ascii) : ascii :=
  if isUpper c then ascii_of_nat (nat_of_ascii c + 32) else c.

Definition upperUnit (c : ascii) : ascii :=
  if isLower c then ascii_of_nat (nat_of_ascii c - 32) else c.

(** [String.prototype.toLowerCase]. *)
Definition toLowerCase (s : string) : string :=
  Unicode.encode (Unicode.lowerChars false (Unicode.decode s)).

(** [String.prototype.toUpperCase]. *)
Definition toUpperCase (s : string) : string :=
  Unicode.encode (flat_map Unicode.upperChar (Unicode.decode s)).

(** [s.includes(k)]: [k] occurs in [s] at some position. *)
Fixpoint includes (s k : string) : bool :=
  if prefix k s then true
  else match s with
       | EmptyString => false
       | String _ rest => includes rest k
       end.

(** [o?.m(...)] in a boolean position: [undefined] (falsy) when the
    receiver is absent. *)
Definition optChain {A : Type} (o : option A) (m : A -> bool) : bool :=
  match o with
  | Some a => m a
  | None => false
  end.

End JS.

(** ** The data model: [types/product.ts] *)

Record Price : Set := mkPrice {
  value : JS.number;
  currency : string;
  displayAmount : string
}.

Record PrimaryImages : Set := mkPrimary {
  small : string;
  medium : string;
  large : string
}.

Record Images : Set := mkImages {
  primary : PrimaryImages
}.

Record Product : Set := mkProduct {
  asin : string;
  title : string;
  price : option Price;
  images : option Images;
  rating : option JS.number;
  reviewCount : option JS.number;
  isPrime : option bool;
  detailPageURL : string;
  availability : option string;
  brand : option string;
  features : option (list string)
}.

Record SearchParams : Set := mkSearchParams {
  keywords : option string;
  category : option string;
  minPrice : option JS.number;
  maxPrice : option JS.number;
  page : option JS.number
}.

(** ** Asynchronous computations over the module state *)

(** The state the functions of the module can reach: the contents of the
    array bound to [MOCK_PRODUCTS]. *)
Definition Store : Set := list Product.

Inductive Settled (A : Type) : Type :=
| Fulfilled (result : A)
| Rejected (reason : string).

Arguments Fulfilled {A} result.
Arguments Rejected {A} reason.

Definition Async (A : Type) : Type := Store -> Settled A * Store.

Definition ret {A : Type} (a : A) : Async A :=
  fun st => (Fulfilled a, st).

Definition bind {A B : Type} (m : Async A) (k : A -> Async B) : Async B :=
  fun st =>
    match m st with
    | (Fulfilled a, st') => k a st'
    | (Rejected e, st') => (Rejected e, st')
    end.

Notation "x <- m ;; k" := (bind m (fun x => k))
  (at level 61, m at next level, right associativity).
Notation "m ;; k" := (bind m (fun _ => k))
  (at level 61, right associativity).

(** [await new Promise(resolve => setTimeout(resolve, ms))]. *)
Definition delay (ms : nat) : Async unit :=
  fun st => (Fulfilled tt, st).

(** Reading the array bound to [MOCK_PRODUCTS]. *)
Definition readProducts : Async (list Product) :=
  fun st => (Fulfilled st, st).

(** ** The seed data *)

Definition dquote : string := String (ascii_of_nat 34) EmptyString.

Definition unsplash (photo size : string) : string :=
  "https://images.unsplash.com/photo-" ++ photo
    ++ "?w=" ++ size ++ "&h=" ++ size ++ "&fit=crop".

Definition photos (photo : string) : option Images :=
  Some (mkImages (mkPrimary (unsplash photo "300")
                            (unsplash photo "500")
                            (unsplash photo "800"))).

Definition MOCK_PRODUCTS : list Product :=
  [ {| asin := "B08N5WRWNW";
       title := "Apple AirPods Pro (2nd Generation)";
       price := Some (mkPrice 249.99%float "USD" "$249.99");
       images := photos "1606841837239-c5a1a4a07af7";
       rating := Some 4.7%float;
       reviewCount := Some 15420%float;
       isPrime := Some true;
       detailPageURL := "https://amazon.com/dp/B08N5WRWNW";
       availability := Some "In Stock";
       brand := Some "Apple";
       features := Some [ "Active Noise Cancellation";
                          "Adaptive Transparency";
                          "Personalized Spatial Audio";
                          "Up to 6 hours listening time" ] |};
    {| asin := "B0CX23V2ZK";
       title := "Kindle Paperwhite (16 GB) â€“ Now with a larger display";
       price := Some (mkPrice 159.99%float "USD" "$159.99");
       images := photos "1592422546632-48d39e7d8c73";
       rating := Some 4.6%float;
       reviewCount := Some 8934%float;
       isPrime := Some true;
       detailPageURL := "https://amazon.com/dp/B0CX23V2ZK";
       availability := Some "In Stock";
       brand := Some "Amazon";
       features := Some [ "6.8" ++ dquote ++ " display";
                          "Waterproof (IPX8)";
                          "Weeks of battery life";
                          "16 GB storage" ] |};
    {| asin := "B0D1XD1ZV3";
       title := "Sony WH-1000XM5 Wireless Noise Cancelling Headphones";
       price := Some (mkPrice 398.00%float "USD" "$398.00");
       images := photos "1546435770-a3e426bf472b";
       rating := Some 4.8%float;
       reviewCount := Some 5623%float;
       isPrime := Some false;
       detailPageURL := "https://amazon.com/dp/B0D1XD1ZV3";
       availability := Some "In Stock";
       brand := Some "Sony";
       features := Some [ "Industry-leading noise cancellation";
                          "Up to 30-hour battery life";
                          "Crystal clear hands-free calling";
                          "Multipoint connection" ] |};
    {| asin := "B09G9FPHY6";
       title := "Samsung Galaxy Tab S9 11" ++ dquote ++ " 128GB WiFi Tablet";
       price := Some (mkPrice 679.99%float "USD" "$679.99");
       images := photos "1544244015-0df4b3ffc6b0";
       rating := Some 4.5%float;
       reviewCount := Some 3201%float;
       isPrime := Some true;
       detailPageURL := "https://amazon.com/dp/B09G9FPHY6";
       availability := Some "In Stock";
       brand := Some "Samsung";
       features := Some [ "11" ++ dquote ++ " Dynamic AMOLED 2X Display";
                          "IP68 Water & Dust Resistant";
                          "S Pen included";
                          "Qualcomm Snapdragon processor" ] |};
    {| asin := "B0BSHF7WHW";
       title := "Anker PowerCore 20000mAh Portable Charger";
       price := Some (mkPrice 49.99%float "USD" "$49.99");
       images := photos "1609091839311-d5365f9ff1c5";
       rating := Some 4.7%float;
       reviewCount := Some 12450%float;
       isPrime := Some true;
       detailPageURL := "https://amazon.com/dp/B0BSHF7WHW";
       availability := Some "In Stock";
       brand := Some "Anker";
       features := Some [ "20000mAh capacity";
                          "Fast charging technology";
                          "Dual USB ports";
                          "Premium build quality" ] |};
    {| asin := "B08XYKHSJQ";
       title := "Logitech MX Master 3S Wireless Mouse";
       price := Some (mkPrice 99.99%float "USD" "$99.99");
       images := photos "1527864550417-7fd91fc51a46";
       rating := Some 4.8%float;
       reviewCount := Some 9876%float;
       isPrime := Some true;
       detailPageURL := "https://amazon.com/dp/B08XYKHSJQ";
       availability := Some "In Stock";
       brand := Some "Logitech";
       features := Some [ "Quiet clicks";
                          "8K DPI sensor";
                          "Ergonomic design";
                          "USB-C rechargeable" ] |} ].

(** ** The catalog service: [lib/amazon-api.ts] *)

(** The callback of the keyword filter; [keywords] is already lowered. *)
Definition keywordMatch (keywords : string) (product : Product) : bool :=
  JS.includes (JS.toLowerCase (title product)) keywords
  || JS.optChain (brand product)
       (fun b => JS.includes (JS.toLowerCase b) keywords).

(** [product.price && product.price.value >= params.minPrice!]. *)
Definition minPriceMatch (minPrice : JS.number) (product : Product) : bool :=
  match price product with
  | Some p => JS.ge (value p) minPrice
  | None => false
  end.

(** [product.price && product.price.value <= params.maxPrice!]. *)
Definition maxPriceMatch (maxPrice : JS.number) (product : Product) : bool :=
  match price product with
  | Some p => JS.le (value p) maxPrice
  | None => false
  end.

Definition searchProducts (params : SearchParams) : Async (list Product) :=
  delay 500 ;;
  stored <- readProducts ;;
  let results := stored in
  let results :=
    match keywords params with
    | Some k =>
        if JS.truthy k then
          let keywords := JS.toLowerCase k in
          filter (keywordMatch keywords) results
        else results
    | None => results
    end in
  let results :=
    match minPrice params with
    | Some lo => filter (minPriceMatch lo) results
    | None => results
    end in
  let results :=
    match maxPrice params with
    | Some hi => filter (maxPriceMatch hi) results
    | None => results
    end in
  ret results.

Definition getProductByASIN (id : string) : Async (option Product) :=
  delay 300 ;;
  stored <- readProducts ;;
  let product := find (fun p => (asin p =? id)%string) stored in
  ret product.

Definition getFeaturedProducts : Async (list Product) :=
  delay 400 ;;
  stored <- readProducts ;;
  ret (firstn 4 stored).

(** ** Specification vocabulary *)

(** [k] occurs in [s] as a contiguous substring. *)
Definition substringOf (k s : string) : Prop :=
  exists pre post, s = pre ++ k ++ post.

(** The keyword condition: the lowered keywords occur in the lowered title,
    or in the lowered brand of a product that has one. *)
Definition keywordHolds (k : string) (p : Product) : Prop :=
  substringOf (JS.toLowerCase k) (JS.toLowerCase (title p))
  \/ exists b, brand p = Some b
              /\ substringOf (JS.toLowerCase k) (JS.toLowerCase b).

(** The product passes the lower bound of [params], if there is one. *)
Definition aboveMin (params : SearchParams) (p : Product) : Prop :=
  forall lo, minPrice params = Some lo ->
    exists pr, price p = Some pr /\ JS.ge (value pr) lo = true.

(** The product passes the upper bound of [params], if there is one. *)
Definition belowMax (params : SearchParams) (p : Product) : Prop :=
  forall hi, maxPrice params = Some hi ->
    exists pr, price p = Some pr /\ JS.le (value pr) hi = true.

(** The criteria [{}]. *)
Definition emptyParams : SearchParams :=
  mkSearchParams None None None None None.

(** The criteria [{ keywords: 'apple', minPrice: 300 }]. *)
Definition appleFrom300 : SearchParams :=
  mkSearchParams (Some "apple") None (Some 300%float) None None.

(** [r] is [l] with some elements dropped, the others in place. *)
Inductive Subsequence {A : Type} : list A -> list A -> Prop :=
| sub_nil : Subsequence [] []
| sub_skip x r l : Subsequence r l -> Subsequence r (x :: l)
| sub_keep x r l : Subsequence r l -> Subsequence (x :: r) (x :: l).

(** Two bytes that are equal, or the same letter of A-Z in its two
    cases. *)
Definition sameLetter (a b : ascii) : bool :=
  (a =? b)%char
  || (JS.isUpper a && (b =? JS.lowerUnit a)%char)
  || (JS.isLower a && (b =? JS.upperUnit a)%char).

(** [k'] is [k] with the case of some of its letters A-Z changed. *)
Fixpoint caseVariant (k k' : string) : bool :=
  match k, k' with
  | EmptyString, EmptyString => true
  | String a s, String b t => sameLetter a b && caseVariant s t
  | _, _ => false
  end.

(** Two characters that have the same lower-case form and count alike
    for the sigma rule; neither is the capital sigma. *)
Definition alike (c c' : Unicode.Char) : Prop :=
  c = c'
  \/ exists n n',
       c = Unicode.CodePoint n /\ c' = Unicode.CodePoint n'
       /\ (n =? 0x3a3)%N = false /\ (n' =? 0x3a3)%N = false
       /\ Unicode.lowerCodePoint n = Unicode.lowerCodePoint n'
       /\ Unicode.cased c = Unicode.cased c'
       /\ Unicode.caseIgnorable c = Unicode.caseIgnorable c'.

(** Two calls of the same operation, one after the other. *)
Definition twice {A : Type} (m : Async A) : Async (A * A) :=
  a <- m ;; b <- m ;; ret (a, b).

(** An operation that is fulfilled, leaves the store as it found it, and
    answers the same when it is called again. *)
Definition readOnly {A : Type} (m : Async A) : Prop :=
  forall st, exists r,
    m st = (Fulfilled r, st) /\ twice m st = (Fulfilled (r, r), st).

(** The closed form of the three successive filters of [searchProducts]. *)
Definition keywordStage (params : SearchParams) (p : Product) : bool :=
  match keywords params with
  | Some k => if JS.truthy k then keywordMatch (JS.toLowerCase k) p else true
  | None => true
  end.

Definition minStage (params : SearchParams) (p : Product) : bool :=
  match minPrice params with
  | Some lo => minPriceMatch lo p
  | None => true
  end.

Definition maxStage (params : SearchParams) (p : Product) : bool :=
  match maxPrice params with
  | Some hi => maxPriceMatch hi p
  | None => true
  end.

Definition selected (params : SearchParams) (p : Product) : bool :=
  keywordStage params p && minStage params p && maxStage params p.

(** ** What the pages render: [components/ProductCard.tsx],
       [app/products/page.tsx], [app/product/[asin]/page.tsx]

    A component is described by the values of the expressions it puts in
    braces, in the order of the markup; the constant markup around them
    carries no data and is left out. *)

(** A number is truthy unless it is [+0], [-0] or [NaN]. *)
Definition truthyNumber (x : JS.number) : bool :=
  match Prim2SF x with
  | S754_zero _ | S754_nan => false
  | _ => true
  end.

(** [x === y] on numbers. *)
Definition strictEquals (x y : JS.number) : bool :=
  match SFcompare (Prim2SF x) (Prim2SF y) with
  | Some Eq => true
  | _ => false
  end.

(** The values [Math.floor] returns: an integer, an infinity or [NaN]. *)
Inductive Integral : Set :=
| NegInfinity
| Int (z : Z)
| PosInfinity
| NotANumber.

(** [Math.floor(x)]: the binary64 value [(-1)^s * m * 2^e] rounded down. *)
Definition Math_floor (x : JS.number) : Integral :=
  match Prim2SF x with
  | S754_nan => NotANumber
  | S754_infinity s => if s then NegInfinity else PosInfinity
  | S754_zero _ => Int 0
  | S754_finite s m e => Int (Z.shiftl (cond_Zopp s (Zpos m)) e)
  end.

(** [i < n] for an array index [i]. *)
Definition indexBelow (i : nat) (n : Integral) : bool :=
  match n with
  | PosInfinity => true
  | Int z => (Z.of_nat i <? z)%Z
  | NegInfinity | NotANumber => false
  end.

(** The value of a child expression [{a && <element/>}]: React renders
    nothing for [undefined], [null] and [false], the text of a number, and
    the characters of a string. *)
Inductive Slot (E : Type) : Type :=
| Blank
| NumberChild (n : JS.number)
| StringChild (s : string)
| Element (e : E).

Arguments Blank {E}.
Arguments NumberChild {E} n.
Arguments StringChild {E} s.
Arguments Element {E} e.

(** [{x && e}] for an optional number [x]. *)
Definition andNumber {E : Type} (x : option JS.number) (e : JS.number -> E)
  : Slot E :=
  match x with
  | None => Blank
  | Some n => if truthyNumber n then Element (e n) else NumberChild n
  end.

(** [{s && e}] for an optional string [s]. *)
Definition andString {E : Type} (s : option string) (e : string -> E)
  : Slot E :=
  match s with
  | None => Blank
  | Some t => if JS.truthy t then Element (e t) else StringChild t
  end.

(** [{b && e}] for an optional boolean [b]. *)
Definition andBool {E : Type} (b : option bool) (e : E) : Slot E :=
  match b with
  | Some true => Element e
  | Some false | None => Blank
  end.

(** [product.images?.primary.large || '/placeholder.png']. *)
Definition imageSource (product : Product) : string :=
  match images product with
  | Some im =>
      if JS.truthy (large (primary im)) then large (primary im)
      else "/placeholder.png"
  | None => "/placeholder.png"
  end.

(** [i < Math.floor(product.rating!)]. *)
Definition starFilled (rating : JS.number) (i : nat) : bool :=
  indexBelow i (Math_floor rating).

(** The class of star [i]: [`${size} ${filled ? ... : ...}`]. *)
Definition starClass (size : string) (rating : JS.number) (i : nat) : string :=
  size ++ " " ++ (if starFilled rating i
                  then "fill-yellow-400 text-yellow-400"
                  else "text-gray-300").

(** [[...Array(5)].map((_, i) => <Star className=... />)]. *)
Definition starRow (size : string) (rating : JS.number) : list string :=
  map (starClass size rating) (seq 0 5).

(** [product.availability.toLowerCase().includes('stock')
       ? 'text-green-600' : 'text-red-600']. *)
Definition stockColour (availability : string) : string :=
  if JS.includes (JS.toLowerCase availability) "stock"
  then "text-green-600"
  else "text-red-600".

(** The two branches of [product.price ? ... : ...]. *)
Inductive PriceLine : Set :=
| PriceAmount (displayed : string)
| PriceMissing (message : string).

Definition priceLine (product : Product) : PriceLine :=
  match price product with
  | Some p => PriceAmount (displayAmount p)
  | None => PriceMissing "Price not available"
  end.

Record RatingLine : Set := mkRatingLine {
  starClasses : list string;
  ratingShown : JS.number;
  reviewsShown : Slot string
}.

Record AvailabilityLine : Set := mkAvailabilityLine {
  availabilityClass : string;
  availabilityShown : string
}.

Record Card : Set := mkCard {
  cardBadge : Slot string;
  cardHref : string;
  cardImage : string;
  cardAlt : string;
  cardBrand : Slot string;
  cardTitle : string;
  cardRating : Slot RatingLine;
  cardPrice : PriceLine;
  cardAvailability : Slot AvailabilityLine;
  cardBuy : string
}.

Record Detail : Set := mkDetail {
  detailCrumb : string;
  detailImage : string;
  detailAlt : string;
  detailBadge : Slot string;
  detailBrand : Slot string;
  detailTitle : string;
  detailRating : Slot RatingLine;
  detailPrice : PriceLine;
  detailAvailability : Slot AvailabilityLine;
  detailFeatures : Slot (list (nat * string));
  detailBuy : string
}.

Record Summary : Set := mkSummary {
  summaryQuery : string;
  summaryCount : nat;
  summaryPlural : string
}.

Record Results : Set := mkResults {
  resultsSummary : Slot Summary;
  resultsGrid : list Product
}.

Record Listing : Set := mkListing {
  listingHeading : string;
  listingResults : Results
}.

Section Pages.

(** [Number.prototype.toLocaleString()]: its output depends on the locale
    of the host. *)
Variable toLocaleString : JS.number -> string.

Definition ProductCard (product : Product) : Card :=
  {| cardBadge := andBool (isPrime product) "Prime";
     cardHref := "/product/" ++ asin product;
     cardImage := imageSource product;
     cardAlt := title product;
     cardBrand := andString (brand product) (fun b => b);
     cardTitle := title product;
     cardRating :=
       andNumber (rating product) (fun r =>
         {| starClasses := starRow "w-4 h-4" r;
            ratingShown := r;
            reviewsShown :=
              andNumber (reviewCount product)
                        (fun n => "(" ++ toLocaleString n ++ ")") |});
     cardPrice := priceLine product;
     cardAvailability :=
       andString (availability product) (fun a =>
         {| availabilityClass := "text-sm mt-2 " ++ stockColour a;
            availabilityShown := a |});
     cardBuy := detailPageURL product |}.

(** [notFound()] of [next/navigation] does not return: it throws the error
    the framework answers with its 404 page. *)
Definition notFound {A : Type} : Async A :=
  fun st => (Rejected "NEXT_HTTP_ERROR_FALLBACK;404", st).

(** [product.features && product.features.length > 0 && (...)], the
    items keyed by their index. *)
Definition featureList (product : Product) : Slot (list (nat * string)) :=
  match features product with
  | None => Blank
  | Some fs =>
      if (0 <? List.length fs)%nat
      then Element (combine (seq 0 (List.length fs)) fs)
      else Blank
  end.

Definition ProductPage (asinParam : string) : Async Detail :=
  product <- getProductByASIN asinParam ;;
  match product with
  | None => notFound
  | Some product =>
      ret {| detailCrumb := title product;
             detailImage := imageSource product;
             detailAlt := title product;
             detailBadge := andBool (isPrime product) "Prime";
             detailBrand := andString (brand product) (fun b => b);
             detailTitle := title product;
             detailRating :=
               andNumber (rating product) (fun r =>
                 {| starClasses := starRow "w-5 h-5" r;
                    ratingShown := r;
                    reviewsShown :=
                      andNumber (reviewCount product)
                        (fun n => "(" ++ toLocaleString n ++ " reviews)") |});
             detailPrice := priceLine product;
             detailAvailability :=
               andString (availability product) (fun a =>
                 {| availabilityClass :=
                      "flex items-center gap-2 " ++ stockColour a;
                    availabilityShown := a |});
             detailFeatures := featureList product;
             detailBuy := detailPageURL product |}
  end.

End Pages.

(** [app/products/page.tsx]. *)
Definition ProductResults (query : option string) : Async Results :=
  let params := mkSearchParams query None None None None in
  products <- searchProducts params ;;
  ret {| resultsSummary :=
           andString query (fun q =>
             {| summaryQuery := q;
                summaryCount := List.length products;
                summaryPlural :=
                  if negb (List.length products =? 1)%nat then "s"
                  else EmptyString |});
         resultsGrid := products |}.

Definition ProductsPage (q : option string) : Async Listing :=
  let query := q in
  results <- ProductResults query ;;
  ret {| listingHeading :=
           match query with
           | Some t => if JS.truthy t then "Search Results"
                       else "All Products"
           | None => "All Products"
           end;
         listingResults := results |}.

(** [app/page.tsx]: the products handed to the grid of the home page. *)
Definition Home : Async (list Product) :=
  featuredProducts <- getFeaturedProducts ;;
  ret featuredProducts.

(** The number of filled stars for a floored rating. *)
Definition filledCount (n : Integral) : nat :=
  match n with
  | PosInfinity => 5
  | Int z => Z.to_nat (Z.min 5 (Z.max 0 z))
  | NegInfinity | NotANumber => 0
  end.

(** [a] is equal to or greater than [b]; false when either is NaN. *)
Definition atLeast (a b : spec_float) : Prop :=
  SFcompare a b = Some Eq \/ SFcompare a b = Some Gt.

(** The criteria [{ keywords: k }] the listing page builds. *)
Definition keywordsOnly (k : option string) : SearchParams :=
  mkSearchParams k None None None None.

(** A product with no optional field, for trying the pages on. *)
Definition plainProduct : Product :=
  {| asin := "B000000001";
     title := "Plain Notebook";
     price := None;
     images := None;
     rating := None;
     reviewCount := None;
     isPrime := None;
     detailPageURL := "https://amazon.com/dp/B000000001";
     availability := None;
     brand := None;
     features := None |}.

(** What a rating slot must hold for an optional rating: nothing when
    the rating is absent, the number itself when it is [0] or [NaN], and
    otherwise a row of five stars, the filled ones first. *)
Definition ratingSlotFor (size : string) (rating : option JS.number)
           (slot : Slot RatingLine) : Prop :=
  match rating with
  | None => slot = Blank
  | Some r =>
      if truthyNumber r then
        exists line,
          slot = Element line
          /\ ratingShown line = r
          /\ starClasses line
             = List.app
                 (repeat (size ++ " fill-yellow-400 text-yellow-400")
                         (filledCount (Math_floor r)))
                 (repeat (size ++ " text-gray-300")
                         (5 - filledCount (Math_floor r)))
      else slot = NumberChild r
  end.

(** ** Lists *)

Section Lists.
Context {A : Type}.

Lemma filter_true (l : list A) : filter (fun _ => true) l = l.
Proof. induction l as [|x l IH]; simpl; congruence. Qed.

Lemma filter_twice (f g : A -> bool) (l : list A) :
  filter g (filter f l) = filter (fun x => f x && g x) l.
Proof.
  induction l as [|x l IH]; simpl; [reflexivity|].
  destruct (f x); simpl; [destruct (g x)|]; rewrite IH; reflexivity.
Qed.

Lemma Subsequence_refl (l : list A) : Subsequence l l.
Proof. induction l; constructor; assumption. Qed.

Lemma Subsequence_filter (f : A -> bool) (l : list A) :
  Subsequence (filter f l) l.
Proof.
  induction l as [|x l IH]; simpl; [constructor|].
  destruct (f x); constructor; exact IH.
Qed.

Lemma StronglySorted_map_S (idx : list nat) :
  StronglySorted lt idx -> StronglySorted lt (map S idx).
Proof.
  induction 1 as [|i idx Hs IH Hall]; simpl; constructor; [exact IH|].
  rewrite Forall_forall in *. intros j Hj.
  apply in_map_iff in Hj as [j' [<- Hj']]. apply Hall in Hj'. lia.
Qed.

(** A subsequence is read off the list at strictly increasing
    positions. *)
Lemma Subsequence_positions (r l : list A) :
  Subsequence r l ->
  exists idx, StronglySorted lt idx
              /\ map (nth_error l) idx = map Some r.
Proof.
  induction 1 as [|x r l _ [idx [Hs Hm]]|x r l _ [idx [Hs Hm]]].
  - exists []. split; [constructor|reflexivity].
  - exists (map S idx). split; [apply StronglySorted_map_S, Hs|].
    rewrite map_map. exact Hm.
  - exists (0 :: map S idx). split.
    + constructor; [apply StronglySorted_map_S, Hs|].
      apply Forall_forall. intros j Hj.
      apply in_map_iff in Hj as [j' [<- _]]. lia.
    + simpl. rewrite map_map. simpl. f_equal. exact Hm.
Qed.

Lemma firstn_prefix (n : nat) (l : list A) :
  exists rest, l = (firstn n l ++ rest)%list.
Proof. exists (skipn n l). symmetry. apply firstn_skipn. Qed.

End Lists.

(** ** Strings *)

Section Strings.

Lemma prefix_spec (k s : string) :
  prefix k s = true <-> exists post, s = k ++ post.
Proof.
  revert k. induction s as [|c s IH]; intros [|a k]; simpl.
  - split; [exists EmptyString; reflexivity|reflexivity].
  - split; [discriminate|intros [post H]; discriminate].
  - split; [exists (String c s); reflexivity|reflexivity].
  - destruct (ascii_dec a c) as [->|Hne].
    + rewrite IH. split; intros [post H]; exists post; congruence.
    + split; [discriminate|]. intros [post H]. congruence.
Qed.

Lemma includes_nil (k : string) :
  JS.includes EmptyString k = prefix k EmptyString.
Proof. destruct k; reflexivity. Qed.

Lemma includes_cons (c : ascii) (s k : string) :
  JS.includes (String c s) k
  = if prefix k (String c s) then true else JS.includes s k.
Proof. reflexivity. Qed.

Lemma includes_spec (s k : string) :
  JS.includes s k = true <-> substringOf k s.
Proof.
  unfold substringOf.
  induction s as [|c s IH]; [rewrite includes_nil|rewrite includes_cons].
  - destruct (prefix k EmptyString) eqn:Hp.
    + apply prefix_spec in Hp as [post Hp].
      split; [exists EmptyString, post; exact Hp|reflexivity].
    + split; [discriminate|]. intros [pre [post H]].
      destruct pre; [|discriminate]. simpl in H.
      assert (prefix k EmptyString = true) by (apply prefix_spec; eauto).
      congruence.
  - destruct (prefix k (String c s)) eqn:Hp.
    + apply prefix_spec in Hp as [post Hp].
      split; [exists EmptyString, post; exact Hp|reflexivity].
    + rewrite IH. split; intros [pre [post H]].
      * exists (String c pre), post. simpl. congruence.
      * destruct pre as [|c' pre]; simpl in H.
        -- assert (prefix k (String c s) = true)
             by (apply prefix_spec; eauto).
           congruence.
        -- exists pre, post. congruence.
Qed.

Lemma caseVariant_truthy (k k' : string) :
  caseVariant k k' = true -> JS.truthy k = JS.truthy k'.
Proof. destruct k, k'; simpl; congruence. Qed.

Lemma truthy_nonempty (k : string) :
  k <> EmptyString -> JS.truthy k = true.
Proof. destruct k; [congruence|reflexivity]. Qed.

End Strings.

(** ** Case conversion *)

Section CaseConversion.

Import Unicode.

Lemma append_assoc (a b c : string) : (a ++ b) ++ c = a ++ b ++ c.
Proof. induction a as [|x a IH]; simpl; congruence. Qed.

Lemma append_empty_r (a : string) : a ++ EmptyString = a.
Proof. induction a as [|x a IH]; simpl; congruence. Qed.

Lemma encode_app (l1 l2 : list Char) :
  encode (l1 ++ l2) = encode l1 ++ encode l2.
Proof.
  induction l1 as [|c l1 IH]; simpl; [reflexivity|].
  rewrite IH, append_assoc. reflexivity.
Qed.

Lemma encodeChar_nonempty (c : Char) : encodeChar c <> EmptyString.
Proof.
  destruct c as [n|b]; simpl; [|discriminate].
  unfold encodeCodePoint.
  destruct (n <? 0x80)%N; [discriminate|].
  destruct (n <? 0x800)%N; [discriminate|].
  destruct (n <? 0x10000)%N; discriminate.
Qed.

Lemma lowerChar_nonempty (st : bool) (c : Char) (rest : list Char) :
  lowerChar st c rest <> [].
Proof.
  destruct c as [n|b]; simpl; [|discriminate].
  destruct (n =? 0x3a3)%N.
  - destruct (st && negb (beforeCased rest)); discriminate.
  - unfold lowerCodePoint. destruct (n =? 0x130)%N; [discriminate|].
    destruct (mapRuns lowerRuns n); discriminate.
Qed.

Lemma decode_nonempty (b : ascii) (r : string) : decode (String b r) <> [].
Proof.
  cbn [decode].
  repeat match goal with
         | |- (if ?c then _ else _) <> _ => destruct c
         | |- match ?x with _ => _ end <> _ => destruct x
         end; discriminate.
Qed.

Lemma toLowerCase_empty (a : string) :
  JS.toLowerCase a = EmptyString -> a = EmptyString.
Proof.
  destruct a as [|b r]; [reflexivity|]. unfold JS.toLowerCase.
  destruct (decode (String b r)) as [|c l] eqn:Hd.
  - destruct (decode_nonempty b r Hd).
  - cbn [lowerChars]. rewrite encode_app.
    destruct (lowerChar false c l) as [|o out] eqn:Ho.
    + destruct (lowerChar_nonempty false c l Ho).
    + cbn [encode]. intros H.
      destruct (encodeChar o) eqn:He;
        [destruct (encodeChar_nonempty o He)|discriminate].
Qed.

Lemma lower_truthy (k k' : string) :
  JS.toLowerCase k = JS.toLowerCase k' -> JS.truthy k = JS.truthy k'.
Proof.
  intros H. destruct k as [|a k], k' as [|b k']; try reflexivity.
  - symmetry in H. apply toLowerCase_empty in H. discriminate.
  - apply toLowerCase_empty in H. discriminate.
Qed.

(** *** Letters of the same name *)

Lemma sameLetter_cases (a b : ascii) :
  sameLetter a b = true ->
  a = b
  \/ (JS.isUpper a = true /\ b = JS.lowerUnit a)
  \/ (JS.isLower a = true /\ b = JS.upperUnit a).
Proof.
  unfold sameLetter. rewrite !orb_true_iff, !andb_true_iff.
  intros [[H|[Hu H]]|[Hl H]]; apply Ascii.eqb_eq in H; auto.
Qed.

Lemma upper_alike (a : ascii) :
  JS.isUpper a = true ->
  (N_of_ascii a <? 0x80)%N = true
  /\ (N_of_ascii (JS.lowerUnit a) <? 0x80)%N = true
  /\ alike (CodePoint (N_of_ascii a))
           (CodePoint (N_of_ascii (JS.lowerUnit a))).
Proof.
  destruct a as [[] [] [] [] [] [] [] []]; intros H; try discriminate H;
    (split; [reflexivity|]; split; [reflexivity|]; right;
     eexists; eexists; repeat split; vm_compute; reflexivity).
Qed.

Lemma lower_alike (a : ascii) :
  JS.isLower a = true ->
  (N_of_ascii a <? 0x80)%N = true
  /\ (N_of_ascii (JS.upperUnit a) <? 0x80)%N = true
  /\ alike (CodePoint (N_of_ascii a))
           (CodePoint (N_of_ascii (JS.upperUnit a))).
Proof.
  destruct a as [[] [] [] [] [] [] [] []]; intros H; try discriminate H;
    (split; [reflexivity|]; split; [reflexivity|]; right;
     eexists; eexists; repeat split; vm_compute; reflexivity).
Qed.

Lemma sameLetter_bytes (a b : ascii) :
  sameLetter a b = true ->
  a = b
  \/ ((N_of_ascii a <? 0x80)%N = true
      /\ (N_of_ascii b <? 0x80)%N = true
      /\ alike (CodePoint (N_of_ascii a)) (CodePoint (N_of_ascii b))).
Proof.
  intros H. destruct (sameLetter_cases a b H) as [E|[[Hu ->]|[Hl ->]]].
  - left. exact E.
  - right. apply upper_alike, Hu.
  - right. apply lower_alike, Hl.
Qed.

Lemma ascii_not_cont (n : N) : (n <? 0x80)%N = true -> isCont n = false.
Proof.
  intros H. apply N.ltb_lt in H. unfold isCont.
  destruct (N.leb_spec 0x80 n); [lia|reflexivity].
Qed.

Lemma sameLetter_cont (a b : ascii) :
  sameLetter a b = true ->
  isCont (N_of_ascii a) = isCont (N_of_ascii b)
  /\ (isCont (N_of_ascii a) = true -> a = b).
Proof.
  intros H. destruct (sameLetter_bytes a b H) as [->|[Ha [Hb _]]].
  - auto.
  - rewrite (ascii_not_cont _ Ha), (ascii_not_cont _ Hb).
    split; [reflexivity|discriminate].
Qed.

Lemma decode_ascii (b : ascii) (r : string) :
  (N_of_ascii b <? 0x80)%N = true ->
  decode (String b r) = CodePoint (N_of_ascii b) :: decode r.
Proof. intros H. cbn [decode]. rewrite H. reflexivity. Qed.

Lemma alike_refl (c : Char) : alike c c.
Proof. left. reflexivity. Qed.

(** *** Strings that differ in the case of the letters A-Z only *)

Ltac same_branch :=
  match goal with
  | |- Forall2 alike (if ?c then _ else _) (if ?c then _ else _) =>
      destruct c
  end.

Ltac stray_both IH0 :=
  constructor; [apply alike_refl|exact IH0].

Lemma decode_alike_bounded (n : nat) :
  forall k k',
    String.length k <= n -> caseVariant k k' = true ->
    Forall2 alike (decode k) (decode k').
Proof.
  induction n as [|n IH]; intros k k' Hlen Hv.
  - destruct k; [|simpl in Hlen; lia].
    destruct k'; [constructor|discriminate].
  - destruct k as [|b0 r0], k' as [|b0' r0']; try discriminate;
      [constructor|].
    cbn [String.length] in Hlen. cbn [caseVariant] in Hv.
    apply andb_true_iff in Hv as [H0 Hr].
    assert (Forall2 alike (decode r0) (decode r0')) as IH0
        by (apply IH; [lia|exact Hr]).
    destruct (sameLetter_bytes b0 b0' H0) as [<-|[Ha [Hb Hab]]].
    2:{ rewrite (decode_ascii _ _ Ha), (decode_ascii _ _ Hb).
        constructor; assumption. }
    cbn [decode]. same_branch; [stray_both IH0|].
    destruct r0 as [|b1 r1], r0' as [|b1' r1']; try discriminate;
      [stray_both IH0|].
    cbn [String.length] in Hlen. cbn [caseVariant] in Hr.
    apply andb_true_iff in Hr as [H1 Hr1].
    assert (Forall2 alike (decode r1) (decode r1')) as IH1
        by (apply IH; [lia|exact Hr1]).
    destruct (sameLetter_cont b1 b1' H1) as [Hc1 He1]. rewrite <- Hc1.
    destruct (isCont (N_of_ascii b1)); [|stray_both IH0].
    specialize (He1 eq_refl). subst b1'.
    same_branch; [stray_both IH1|].
    destruct r1 as [|b2 r2], r1' as [|b2' r2']; try discriminate;
      [stray_both IH0|].
    cbn [String.length] in Hlen. cbn [caseVariant] in Hr1.
    apply andb_true_iff in Hr1 as [H2 Hr2].
    assert (Forall2 alike (decode r2) (decode r2')) as IH2
        by (apply IH; [lia|exact Hr2]).
    destruct (sameLetter_cont b2 b2' H2) as [Hc2 He2]. rewrite <- Hc2.
    destruct (isCont (N_of_ascii b2)); [|stray_both IH0].
    specialize (He2 eq_refl). subst b2'.
    same_branch; [stray_both IH2|].
    destruct r2 as [|b3 r3], r2' as [|b3' r3']; try discriminate;
      [stray_both IH0|].
    cbn [String.length] in Hlen. cbn [caseVariant] in Hr2.
    apply andb_true_iff in Hr2 as [H3 Hr3].
    assert (Forall2 alike (decode r3) (decode r3')) as IH3
        by (apply IH; [lia|exact Hr3]).
    destruct (sameLetter_cont b3 b3' H3) as [Hc3 He3]. rewrite <- Hc3.
    destruct (isCont (N_of_ascii b3)); [|stray_both IH0].
    specialize (He3 eq_refl). subst b3'.
    same_branch; [stray_both IH3|stray_both IH0].
Qed.

Lemma decode_alike (k k' : string) :
  caseVariant k k' = true -> Forall2 alike (decode k) (decode k').
Proof. apply (decode_alike_bounded (String.length k)). lia. Qed.

Lemma alike_step (st : bool) (c c' : Char) :
  alike c c' -> step st c = step st c'.
Proof.
  intros [->|[n [n' [-> [-> [_ [_ [_ [Hc Hi]]]]]]]]]; [reflexivity|].
  unfold step. rewrite Hc, Hi. reflexivity.
Qed.

Lemma alike_beforeCased (l l' : list Char) :
  Forall2 alike l l' -> beforeCased l = beforeCased l'.
Proof.
  induction 1 as [|c c' l l' Hc _ IH]; [reflexivity|].
  cbn [beforeCased]. rewrite IH.
  destruct Hc as [->|[n [n' [-> [-> [_ [_ [_ [Hc Hi]]]]]]]]];
    [reflexivity|].
  rewrite Hc, Hi. reflexivity.
Qed.

Lemma alike_lowerChar (st : bool) (c c' : Char) (l l' : list Char) :
  alike c c' -> beforeCased l = beforeCased l' ->
  lowerChar st c l = lowerChar st c' l'.
Proof.
  intros [->|[n [n' [-> [-> [Hn [Hn' [Hl _]]]]]]]] Hb.
  - destruct c' as [n|b]; cbn [lowerChar]; [|reflexivity].
    rewrite Hb. reflexivity.
  - cbn [lowerChar]. rewrite Hn, Hn', Hl. reflexivity.
Qed.

Lemma alike_lowerChars (l l' : list Char) :
  Forall2 alike l l' ->
  forall st, lowerChars st l = lowerChars st l'.
Proof.
  induction 1 as [|c c' l l' Hc Hl IH]; intros st; [reflexivity|].
  cbn [lowerChars].
  rewrite (alike_lowerChar st c c' l l' Hc (alike_beforeCased l l' Hl)).
  rewrite (alike_step st c c' Hc), IH. reflexivity.
Qed.

Lemma caseVariant_lower (k k' : string) :
  caseVariant k k' = true -> JS.toLowerCase k = JS.toLowerCase k'.
Proof.
  intros H. unfold JS.toLowerCase.
  rewrite (alike_lowerChars _ _ (decode_alike k k' H)). reflexivity.
Qed.

(** *** A letter met in the middle of a text *)

Ltac by_ih :=
  match goal with
  | H : decode _ = (decode _ ++ _)%list |- _ => rewrite H; reflexivity
  end.

Ltac split_if :=
  match goal with
  | |- (if ?c then _ else _) = ((if ?c then _ else _) ++ _)%list =>
      destruct c
  end.

Lemma decode_app_bounded (n : nat) :
  forall pre b r,
    String.length pre <= n ->
    (N_of_ascii b <? 0x80)%N = true ->
    decode (pre ++ String b r)
    = (decode pre ++ decode (String b r))%list.
Proof.
  induction n as [|n IH]; intros pre b r Hlen Hb.
  - destruct pre; [reflexivity|simpl in Hlen; lia].
  - destruct pre as [|b0 p0]; [reflexivity|].
    cbn [String.length] in Hlen.
    assert (decode (p0 ++ String b r)
            = (decode p0 ++ decode (String b r))%list) as IH0
        by (apply IH; [lia|exact Hb]).
    pose proof (ascii_not_cont _ Hb) as Hnc.
    set (tl := decode (String b r)) in *.
    cbn [append]. cbn [decode]. split_if; [by_ih|].
    destruct p0 as [|b1 p1]; cbn [append] in *; cbv beta iota zeta.
    { rewrite Hnc. by_ih. }
    cbn [String.length] in Hlen.
    assert (decode (p1 ++ String b r) = (decode p1 ++ tl)%list) as IH1
        by (apply IH; [lia|exact Hb]).
    split_if; [|by_ih]. split_if; [by_ih|].
    destruct p1 as [|b2 p2]; cbn [append] in *; cbv beta iota zeta.
    { rewrite Hnc. by_ih. }
    cbn [String.length] in Hlen.
    assert (decode (p2 ++ String b r) = (decode p2 ++ tl)%list) as IH2
        by (apply IH; [lia|exact Hb]).
    split_if; [|by_ih]. split_if; [by_ih|].
    destruct p2 as [|b3 p3]; cbn [append] in *; cbv beta iota zeta.
    { rewrite Hnc. cbn [andb]. by_ih. }
    cbn [String.length] in Hlen.
    assert (decode (p3 ++ String b r) = (decode p3 ++ tl)%list) as IH3
        by (apply IH; [lia|exact Hb]).
    split_if; by_ih.
Qed.

Lemma decode_app_ascii (pre : string) (b : ascii) (r : string) :
  (N_of_ascii b <? 0x80)%N = true ->
  decode (pre ++ String b r) = (decode pre ++ decode (String b r))%list.
Proof. apply (decode_app_bounded (String.length pre)). lia. Qed.

Lemma lowerChars_app (l1 l2 : list Char) :
  forall st, exists out st',
    lowerChars st (l1 ++ l2) = (out ++ lowerChars st' l2)%list.
Proof.
  induction l1 as [|c l1 IH]; intros st.
  - exists [], st. reflexivity.
  - destruct (IH (step st c)) as [out [st' H]].
    exists (lowerChar st c (l1 ++ l2) ++ out)%list, st'.
    cbn [app lowerChars]. rewrite H, app_assoc. reflexivity.
Qed.

Lemma small_letter (a : ascii) :
  JS.isLower a = true ->
  (N_of_ascii a <? 0x80)%N = true
  /\ (N_of_ascii a =? 0x3a3)%N = false
  /\ lowerCodePoint (N_of_ascii a) = [N_of_ascii a].
Proof.
  destruct a as [[] [] [] [] [] [] [] []]; intros H; try discriminate H;
    repeat split; vm_compute; reflexivity.
Qed.

Lemma sameLetter_small (a b : ascii) :
  JS.isLower a = true -> sameLetter a b = true ->
  (N_of_ascii b <? 0x80)%N = true
  /\ (N_of_ascii b =? 0x3a3)%N = false
  /\ lowerCodePoint (N_of_ascii b) = [N_of_ascii a].
Proof.
  intros Hl Hs. destruct (small_letter a Hl) as [Ha [Hn Hlow]].
  destruct (sameLetter_bytes a b Hs) as [<-|[_ [Hb Hab]]]; [auto|].
  destruct Hab as [E|[n [n' [E1 [E2 [_ [Hn' [Hlo _]]]]]]]].
  - injection E as E. rewrite <- E. auto.
  - injection E1 as <-. injection E2 as <-.
    rewrite <- Hlo. auto.
Qed.

Lemma encode_small (a : ascii) :
  (N_of_ascii a <? 0x80)%N = true ->
  encodeCodePoint (N_of_ascii a) = String a EmptyString.
Proof.
  intros H. unfold encodeCodePoint. rewrite H. cbn [bytes fold_right].
  rewrite ascii_N_embedding. reflexivity.
Qed.

(** A word of small letters, spelt in any case of the letters A-Z and
    followed by any text, lower-cases to the word itself followed by the
    lower-case form of that text in its context. *)
Lemma lower_word_chars (k : string) :
  forall w,
    caseVariant k w = true ->
    (forall a, In a (list_ascii_of_string k) -> JS.isLower a = true) ->
    forall st post, exists st',
      encode (lowerChars st (decode (w ++ post)))
      = k ++ encode (lowerChars st' (decode post)).
Proof.
  induction k as [|a k IH]; intros [|b w] Hv Hk st post;
    try discriminate.
  - exists st. reflexivity.
  - cbn [caseVariant] in Hv. apply andb_true_iff in Hv as [Hab Hv].
    assert (JS.isLower a = true) as Ha by (apply Hk; left; reflexivity).
    destruct (sameLetter_small a b Ha Hab) as [Hb [Hn Hlow]].
    destruct (small_letter a Ha) as [Ha80 _].
    cbn [append]. rewrite (decode_ascii _ _ Hb).
    cbn [lowerChars lowerChar]. rewrite Hn, Hlow.
    destruct (IH w Hv (fun x Hx => Hk x (or_intror Hx))
                (step st (CodePoint (N_of_ascii b))) post) as [st' H].
    exists st'. cbn [map app encode encodeChar].
    rewrite (encode_small a Ha80), H. reflexivity.
Qed.

(** Such a word, standing anywhere in a text, occurs in the lower-case
    form of the text. *)
Lemma lower_word_found (k w pre post : string) :
  caseVariant k w = true ->
  (forall a, In a (list_ascii_of_string k) -> JS.isLower a = true) ->
  substringOf k (JS.toLowerCase (pre ++ w ++ post)).
Proof.
  intros Hv Hk. unfold JS.toLowerCase.
  destruct k as [|a k].
  - exists EmptyString. eexists. reflexivity.
  - destruct w as [|b w]; [discriminate|].
    assert ((N_of_ascii b <? 0x80)%N = true) as Hb.
    { cbn [caseVariant] in Hv. apply andb_true_iff in Hv as [Hab _].
      apply (sameLetter_small a b); [apply Hk; left; reflexivity|exact Hab]. }
    cbn [append]. rewrite (decode_app_ascii pre b (w ++ post) Hb).
    destruct (lowerChars_app (decode pre) (decode (String b (w ++ post)))
                false) as [out [st Hout]].
    rewrite Hout, encode_app.
    destruct (lower_word_chars (String a k) (String b w) Hv Hk st post)
      as [st' Hw].
    cbn [append] in Hw. rewrite Hw.
    exists (encode out). eexists. reflexivity.
Qed.

End CaseConversion.

(** ** Numbers *)

Section Numbers.

Ltac order_cases :=
  repeat match goal with
    | H : context [Pos.compare_cont Eq ?m ?n] |- _ =>
        change (Pos.compare_cont Eq m n) with (Pos.compare m n) in H;
        destruct (Pos.compare_spec m n); simpl in H
    | H : context [Z.compare ?m ?n] |- _ =>
        destruct (Z.compare_spec m n); simpl in H
    end.

(** No value lies at or above [a] and at or below [b] when [b] is
    strictly below [a]. *)
Lemma SFcompare_no_room (a b c : spec_float) :
  SFcompare b a = Some Lt ->
  SFcompare c a = Some Eq \/ SFcompare c a = Some Gt ->
  SFcompare b c = Some Eq \/ SFcompare b c = Some Gt ->
  False.
Proof.
  destruct a as [[]|[]| |[] ma ea], b as [[]|[]| |[] mb eb],
           c as [[]|[]| |[] mc ec];
    simpl; intros Hba [Hca|Hca] [Hbc|Hbc]; try discriminate;
    order_cases; try discriminate; subst; lia.
Qed.

Lemma bounds_exclusive (lo hi v : JS.number) :
  JS.gt lo hi = true -> JS.ge v lo = true -> JS.le v hi = true -> False.
Proof.
  unfold JS.gt, JS.ge, JS.le, JS.IsLessThan.
  intros Hgt Hge Hle.
  apply (SFcompare_no_room (Prim2SF lo) (Prim2SF hi) (Prim2SF v)).
  - destruct (SFcompare (Prim2SF hi) (Prim2SF lo)) as [[]|];
      try discriminate; reflexivity.
  - destruct (SFcompare (Prim2SF v) (Prim2SF lo)) as [[]|];
      try discriminate; auto.
  - destruct (SFcompare (Prim2SF hi) (Prim2SF v)) as [[]|];
      try discriminate; auto.
Qed.

End Numbers.

(** ** Running the operations *)

Section Runs.

Lemma stage_filter {A B : Type} (o : option B) (f : B -> A -> bool)
      (r : list A) :
  match o with Some b => filter (f b) r | None => r end
  = filter (fun x => match o with Some b => f b x | None => true end) r.
Proof. destruct o; [reflexivity|symmetry; apply filter_true]. Qed.

Lemma keyword_stage_filter (params : SearchParams) (r : list Product) :
  match keywords params with
  | Some k =>
      if JS.truthy k then filter (keywordMatch (JS.toLowerCase k)) r
      else r
  | None => r
  end = filter (keywordStage params) r.
Proof.
  unfold keywordStage. destruct (keywords params) as [k|].
  - destruct (JS.truthy k); [reflexivity|symmetry; apply filter_true].
  - symmetry; apply filter_true.
Qed.

(** [searchProducts] is fulfilled with the stored products that pass the
    three stages, in stored order, and does not touch the store. *)
Lemma searchProducts_run (params : SearchParams) (st : Store) :
  searchProducts params st = (Fulfilled (filter (selected params) st), st).
Proof.
  cbv [searchProducts bind delay readProducts ret].
  rewrite keyword_stage_filter.
  rewrite (stage_filter (minPrice params) minPriceMatch).
  rewrite (stage_filter (maxPrice params) maxPriceMatch).
  rewrite (filter_twice (keywordStage params) _ st), filter_twice.
  reflexivity.
Qed.

Lemma getProductByASIN_run (id : string) (st : Store) :
  getProductByASIN id st
  = (Fulfilled (find (fun p => (asin p =? id)%string) st), st).
Proof. reflexivity. Qed.

Lemma getFeaturedProducts_run (st : Store) :
  getFeaturedProducts st = (Fulfilled (firstn 4 st), st).
Proof. reflexivity. Qed.

Lemma twice_run {A : Type} (m : Async A) (r : A) (st : Store) :
  m st = (Fulfilled r, st) -> twice m st = (Fulfilled (r, r), st).
Proof. intros H. unfold twice, bind, ret. rewrite H, H. reflexivity. Qed.

Lemma keywordMatch_spec (k : string) (p : Product) :
  keywordMatch (JS.toLowerCase k) p = true <-> keywordHolds k p.
Proof.
  unfold keywordMatch, keywordHolds, JS.optChain.
  rewrite orb_true_iff, includes_spec.
  destruct (brand p) as [b|].
  - rewrite includes_spec. split; intros [H|H]; auto.
    + right. exists b. auto.
    + destruct H as [b' [Hb H]]. injection Hb as <-. auto.
  - split; intros [H|H]; auto; [discriminate|].
    destruct H as [b' [Hb _]]. discriminate.
Qed.

Lemma minStage_spec (params : SearchParams) (p : Product) :
  minStage params p = true <-> aboveMin params p.
Proof.
  unfold minStage, aboveMin, minPriceMatch.
  destruct (minPrice params) as [lo|].
  - split.
    + intros H lo' [= <-]. destruct (price p) as [pr|]; [eauto|discriminate].
    + intros H. destruct (H lo eq_refl) as [pr [-> Hge]]. exact Hge.
  - split; [discriminate|reflexivity].
Qed.

Lemma maxStage_spec (params : SearchParams) (p : Product) :
  maxStage params p = true <-> belowMax params p.
Proof.
  unfold maxStage, belowMax, maxPriceMatch.
  destruct (maxPrice params) as [hi|].
  - split.
    + intros H hi' [= <-]. destruct (price p) as [pr|]; [eauto|discriminate].
    + intros H. destruct (H hi eq_refl) as [pr [-> Hle]]. exact Hle.
  - split; [discriminate|reflexivity].
Qed.

Lemma find_asin_unique (st : Store) (p : Product) :
  NoDup (map asin st) -> In p st ->
  find (fun q => (asin q =? asin p)%string) st = Some p.
Proof.
  induction st as [|q st IH]; simpl; [contradiction|].
  intros Hnd [->|Hin].
  - rewrite String.eqb_refl. reflexivity.
  - inversion Hnd as [|? ? Hq Hnd']; subst.
    destruct (String.eqb_spec (asin q) (asin p)) as [Heq|_].
    + exfalso. apply Hq. rewrite Heq. apply in_map, Hin.
    + apply IH; assumption.
Qed.

Lemma find_asin_absent (st : Store) (id : string) :
  ~ In id (map asin st) ->
  find (fun q => (asin q =? id)%string) st = None.
Proof.
  induction st as [|q st IH]; simpl; [reflexivity|].
  intros Hn. destruct (String.eqb_spec (asin q) id) as [Heq|_].
  - exfalso. apply Hn. left. exact Heq.
  - apply IH. intros H. apply Hn. right. exact H.
Qed.

Lemma find_asin_sound (st : Store) (id : string) (p : Product) :
  find (fun q => (asin q =? id)%string) st = Some p ->
  asin p = id /\ In p st.
Proof.
  intros H. apply find_some in H as [Hin Heq].
  apply String.eqb_eq in Heq. auto.
Qed.

End Runs.

(** ** The seed data at work *)

Example search_airpods :
  exists r,
    searchProducts (mkSearchParams (Some "airpods") None None None None)
                   MOCK_PRODUCTS
    = (Fulfilled r, MOCK_PRODUCTS)
    /\ map asin r = ["B08N5WRWNW"].
Proof. eexists. split; [apply searchProducts_run|reflexivity]. Qed.

Example search_from_300 :
  exists r,
    searchProducts (mkSearchParams None None (Some 300%float) None None)
                   MOCK_PRODUCTS
    = (Fulfilled r, MOCK_PRODUCTS)
    /\ map asin r = ["B0D1XD1ZV3"; "B09G9FPHY6"].
Proof. eexists. split; [apply searchProducts_run|reflexivity]. Qed.

Example search_wireless_up_to_100 :
  exists r,
    searchProducts
      (mkSearchParams (Some "WIRELESS") None None (Some 100%float) None)
      MOCK_PRODUCTS
    = (Fulfilled r, MOCK_PRODUCTS)
    /\ map asin r = ["B08XYKHSJQ"].
Proof. eexists. split; [apply searchProducts_run|reflexivity]. Qed.

Example search_by_brand_only :
  exists r,
    searchProducts (mkSearchParams (Some "amazon") None None None None)
                   MOCK_PRODUCTS
    = (Fulfilled r, MOCK_PRODUCTS)
    /\ map asin r = ["B0CX23V2ZK"].
Proof. eexists. split; [apply searchProducts_run|reflexivity]. Qed.

Example search_bounds_inclusive :
  exists r,
    searchProducts
      (mkSearchParams None None (Some 99.99%float) (Some 99.99%float) None)
      MOCK_PRODUCTS
    = (Fulfilled r, MOCK_PRODUCTS)
    /\ map asin r = ["B08XYKHSJQ"].
Proof. eexists. split; [apply searchProducts_run|reflexivity]. Qed.

Example search_beyond_ascii :
  exists r,
    searchProducts (mkSearchParams (Some "Â") None None None None)
                   MOCK_PRODUCTS
    = (Fulfilled r, MOCK_PRODUCTS)
    /\ map asin r = ["B0CX23V2ZK"].
Proof. eexists. split; [apply searchProducts_run|reflexivity]. Qed.

Example lower_case_forms :
  JS.toLowerCase "Â" = "â"
  /\ JS.toLowerCase "K" = "k"
  /\ JS.toLowerCase "ΟΔΟΣ Σ" = "οδος σ"
  /\ JS.toUpperCase "straße" = "STRASSE".
Proof. repeat split. Qed.

Example featured_of_seed :
  exists r,
    getFeaturedProducts MOCK_PRODUCTS = (Fulfilled r, MOCK_PRODUCTS)
    /\ map asin r = ["B08N5WRWNW"; "B0CX23V2ZK"; "B0D1XD1ZV3"; "B09G9FPHY6"].
Proof. eexists. split; [apply getFeaturedProducts_run|reflexivity]. Qed.

Example empty_catalog :
  searchProducts emptyParams [] = (Fulfilled [], [])
  /\ getFeaturedProducts [] = (Fulfilled [], [])
  /\ getProductByASIN "B08N5WRWNW" [] = (Fulfilled None, []).
Proof. repeat split. Qed.

(** A product without a brand is found through its title. *)
Lemma search_brandless_by_title (k : string) (p : Product) (st : Store) :
  k <> EmptyString ->
  brand p = None ->
  substringOf (JS.toLowerCase k) (JS.toLowerCase (title p)) ->
  In p st ->
  exists r,
    searchProducts (mkSearchParams (Some k) None None None None) st
    = (Fulfilled r, st)
    /\ In p r.
Proof.
  intros Hne Hb Hsub Hin. eexists. split; [apply searchProducts_run|].
  apply filter_In. split; [exact Hin|].
  unfold selected, keywordStage, minStage, maxStage. simpl.
  rewrite (truthy_nonempty k Hne), !andb_true_r.
  apply keywordMatch_spec. left. exact Hsub.
Qed.

(** ** Properties of the catalog service *)

(** C1, as stated, fails: under the criteria
    [{ keywords: 'apple', minPrice: 300 }] the first product of the seed
    data (the AirPods, 249.99) has the lowered keywords in its lowered
    title, yet the search result does not include it, because the price
    filter is applied as well. *)
Lemma search_keywords_not_sufficient :
  exists p r,
    nth_error MOCK_PRODUCTS 0 = Some p
    /\ keywords appleFrom300 = Some "apple"
    /\ In p MOCK_PRODUCTS
    /\ keywordHolds "apple" p
    /\ searchProducts appleFrom300 MOCK_PRODUCTS = (Fulfilled r, MOCK_PRODUCTS)
    /\ ~ In p r.
Proof.
  eexists. exists []. split; [reflexivity|].
  split; [reflexivity|].
  split; [left; reflexivity|].
  split; [left; apply includes_spec; reflexivity|].
  split; [rewrite searchProducts_run; vm_compute; reflexivity|].
  intros [].
Qed.

(** C1 (amended): for criteria with a supplied non-empty keywords string
    [k], the search is fulfilled, and a product is in its result exactly
    when it is stored in the catalog, the lowered [k] is a substring of its
    lowered title or of its lowered brand when it has one, and it passes
    every supplied price bound. *)
Theorem search_keywords_characterised
        (params : SearchParams) (k : string) (st : Store) :
  keywords params = Some k ->
  k <> EmptyString ->
  exists r,
    searchProducts params st = (Fulfilled r, st)
    /\ forall p, In p r <->
                 In p st /\ keywordHolds k p
                 /\ aboveMin params p /\ belowMax params p.
Proof.
  intros Hk Hne. rewrite searchProducts_run.
  eexists. split; [reflexivity|]. intros p.
  rewrite filter_In. unfold selected.
  rewrite !andb_true_iff, minStage_spec, maxStage_spec.
  unfold keywordStage. rewrite Hk, (truthy_nonempty k Hne).
  rewrite keywordMatch_spec. tauto.
Qed.

Lemma search_keywords_characterised_witness :
  exists r,
    searchProducts (mkSearchParams (Some "AirPods") None None None None)
                   MOCK_PRODUCTS
    = (Fulfilled r, MOCK_PRODUCTS)
    /\ forall p, In p r <->
                 In p MOCK_PRODUCTS /\ keywordHolds "AirPods" p
                 /\ aboveMin (mkSearchParams (Some "AirPods") None None None None) p
                 /\ belowMax (mkSearchParams (Some "AirPods") None None None None) p.
Proof.
  apply (search_keywords_characterised
           (mkSearchParams (Some "AirPods") None None None None)
           "AirPods" MOCK_PRODUCTS);
    [reflexivity|discriminate].
Defined.

(** C2: whatever the criteria, the search is fulfilled, and every product
    of its result has a price at or above the supplied [minPrice] and a
    price at or below the supplied [maxPrice]; a product without a price is
    not in the result when either bound is supplied. *)
Theorem search_respects_price_bounds (params : SearchParams) (st : Store) :
  exists r,
    searchProducts params st = (Fulfilled r, st)
    /\ forall p, In p r ->
         (forall lo, minPrice params = Some lo ->
            exists pr, price p = Some pr /\ JS.ge (value pr) lo = true)
         /\ (forall hi, maxPrice params = Some hi ->
               exists pr, price p = Some pr /\ JS.le (value pr) hi = true)
         /\ (minPrice params <> None \/ maxPrice params <> None ->
             price p <> None).
Proof.
  rewrite searchProducts_run. eexists. split; [reflexivity|].
  intros p Hin. apply filter_In in Hin as [_ Hsel].
  unfold selected in Hsel. rewrite !andb_true_iff in Hsel.
  destruct Hsel as [[_ Hmin] Hmax].
  apply minStage_spec in Hmin. apply maxStage_spec in Hmax.
  split; [exact Hmin|]. split; [exact Hmax|].
  intros [Hb|Hb] Hnone.
  - destruct (minPrice params) as [lo|] eqn:Elo; [|congruence].
    destruct (Hmin lo Elo) as [pr [Hpr _]]. congruence.
  - destruct (maxPrice params) as [hi|] eqn:Ehi; [|congruence].
    destruct (Hmax hi Ehi) as [pr [Hpr _]]. congruence.
Qed.

(** C3: the search with the criteria [{}] is fulfilled with the stored
    list itself: every product, in stored order, each as often as it is
    stored. *)
Theorem search_empty_returns_catalog (st : Store) :
  searchProducts emptyParams st = (Fulfilled st, st).
Proof. reflexivity. Qed.

(** X6: the same holds whenever no filter is in force: [category] and
    [page] are free and the keywords may be the empty string, which is
    ignored like absent keywords. *)
Lemma search_without_filters (params : SearchParams) (st : Store) :
  keywords params = None \/ keywords params = Some EmptyString ->
  minPrice params = None ->
  maxPrice params = None ->
  searchProducts params st = (Fulfilled st, st).
Proof.
  intros Hk Hlo Hhi. cbv [searchProducts bind delay readProducts ret].
  rewrite Hlo, Hhi. destruct Hk as [-> | ->]; reflexivity.
Qed.

(** C4: in a catalog whose identifiers are unique, looking up the
    identifier of a stored product is fulfilled with that product; looking
    up an identifier that no stored product has is fulfilled with [null];
    no lookup is rejected; and a product is only ever returned for an
    identifier equal to its own, character for character. *)
Theorem getProductByASIN_spec (st : Store) :
  NoDup (map asin st) ->
  (forall p, In p st ->
     getProductByASIN (asin p) st = (Fulfilled (Some p), st))
  /\ (forall id, ~ In id (map asin st) ->
        getProductByASIN id st = (Fulfilled None, st))
  /\ (forall id, exists r, getProductByASIN id st = (Fulfilled r, st))
  /\ (forall id p, getProductByASIN id st = (Fulfilled (Some p), st) ->
        asin p = id /\ In p st).
Proof.
  intros Hnd. repeat split.
  - intros p Hin. rewrite getProductByASIN_run.
    rewrite (find_asin_unique st p Hnd Hin). reflexivity.
  - intros id Hid. rewrite getProductByASIN_run.
    rewrite (find_asin_absent st id Hid). reflexivity.
  - intros id. rewrite getProductByASIN_run. eexists. reflexivity.
  - rewrite getProductByASIN_run in H. injection H as H.
    apply (find_asin_sound st id p H).
  - rewrite getProductByASIN_run in H. injection H as H.
    apply (find_asin_sound st id p H).
Qed.

Lemma MOCK_PRODUCTS_unique : NoDup (map asin MOCK_PRODUCTS).
Proof.
  simpl. repeat constructor; simpl; intuition discriminate.
Qed.

Lemma getProductByASIN_spec_witness :
  NoDup (map asin MOCK_PRODUCTS)
  /\ (forall p, In p MOCK_PRODUCTS ->
        getProductByASIN (asin p) MOCK_PRODUCTS
        = (Fulfilled (Some p), MOCK_PRODUCTS))
  /\ getProductByASIN "nonexistent" MOCK_PRODUCTS
     = (Fulfilled None, MOCK_PRODUCTS)
  /\ getProductByASIN "b08n5wrwnw" MOCK_PRODUCTS
     = (Fulfilled None, MOCK_PRODUCTS).
Proof.
  split; [exact MOCK_PRODUCTS_unique|].
  destruct (getProductByASIN_spec MOCK_PRODUCTS MOCK_PRODUCTS_unique)
    as [Hfound [Habsent _]].
  split; [exact Hfound|].
  split; apply Habsent; simpl; intuition discriminate.
Defined.

(** C5, as stated, fails: [getFeaturedProducts] declares no count, so a
    request for 2 featured products cannot be expressed; on the seed data
    the call is fulfilled with 4 products, not with min(2, 6) = 2. *)
Lemma getFeatured_count_not_taken :
  exists r,
    getFeaturedProducts MOCK_PRODUCTS = (Fulfilled r, MOCK_PRODUCTS)
    /\ List.length r = 4
    /\ List.length r <> Nat.min 2 (List.length MOCK_PRODUCTS).
Proof.
  eexists. split; [apply getFeaturedProducts_run|].
  split; [reflexivity|]. simpl. discriminate.
Qed.

(** C5 (amended): [getFeaturedProducts] takes no count; it is fulfilled
    with exactly min(4, catalog size) products, namely the first 4 stored
    products in stored order; this result is a prefix of the result of the
    search with the criteria [{}]; and a catalog of at most 4 products is
    returned whole. *)
Theorem getFeaturedProducts_spec (st : Store) :
  exists r,
    getFeaturedProducts st = (Fulfilled r, st)
    /\ r = firstn 4 st
    /\ List.length r = Nat.min 4 (List.length st)
    /\ (exists every rest,
          searchProducts emptyParams st = (Fulfilled every, st)
          /\ every = (r ++ rest)%list)
    /\ (List.length st <= 4 -> r = st).
Proof.
  exists (firstn 4 st). split; [apply getFeaturedProducts_run|].
  split; [reflexivity|]. split; [apply List.length_firstn|]. split.
  - destruct (firstn_prefix 4 st) as [rest Hrest].
    exists st, rest. split; [reflexivity|exact Hrest].
  - intros Hlen. apply firstn_all2. exact Hlen.
Qed.

(** C6, as stated, fails: "SONY" is a case variant of "ſony", its
    upper-case spelling, yet on the seed data the search for "ſony"
    finds nothing and the search for "SONY" finds the Sony headphones:
    the long s is a small letter already, so lower-casing keeps it, while
    "SONY" lower-cases to "sony". *)
Lemma search_case_variant_differs :
  JS.toUpperCase "ſony" = "SONY"
  /\ exists r r',
       searchProducts (mkSearchParams (Some "ſony") None None None None)
                      MOCK_PRODUCTS
       = (Fulfilled r, MOCK_PRODUCTS)
       /\ searchProducts (mkSearchParams (Some "SONY") None None None None)
                         MOCK_PRODUCTS
          = (Fulfilled r', MOCK_PRODUCTS)
       /\ r = [] /\ map asin r' = ["B0D1XD1ZV3"] /\ r <> r'.
Proof.
  split; [reflexivity|]. do 2 eexists.
  rewrite !searchProducts_run.
  split; [reflexivity|]. split; [reflexivity|].
  split; [vm_compute; reflexivity|]. split; [vm_compute; reflexivity|].
  intros E. apply (f_equal (@List.length Product)) in E.
  vm_compute in E. discriminate E.
Qed.

(** C6 (amended): the keyword search does not see the case of the
    letters A-Z: when [k'] is [k] with the case of some of those letters
    changed, or more generally when [k] and [k'] have the same lower-case
    form, the searches with keywords [k] and with keywords [k'], all other
    criteria equal, give the same outcome. *)
Theorem search_case_insensitive
        (k k' : string) (c : option string) (lo hi pg : option JS.number)
        (st : Store) :
  caseVariant k k' = true \/ JS.toLowerCase k = JS.toLowerCase k' ->
  searchProducts (mkSearchParams (Some k) c lo hi pg) st
  = searchProducts (mkSearchParams (Some k') c lo hi pg) st.
Proof.
  intros Hv.
  assert (JS.toLowerCase k = JS.toLowerCase k') as Hlow
      by (destruct Hv as [Hv|Hv]; [apply caseVariant_lower, Hv|exact Hv]).
  cbv [searchProducts bind delay readProducts ret]. simpl.
  rewrite (lower_truthy k k' Hlow), Hlow. reflexivity.
Qed.

Lemma search_case_insensitive_witness :
  caseVariant "apple" "APPLE" = true
  /\ searchProducts (mkSearchParams (Some "apple") None None None None)
                    MOCK_PRODUCTS
     = searchProducts (mkSearchParams (Some "APPLE") None None None None)
                      MOCK_PRODUCTS.
Proof.
  split; [reflexivity|].
  apply (search_case_insensitive "apple" "APPLE"). left. reflexivity.
Defined.

(** C7: when both bounds are supplied and [minPrice > maxPrice], the
    search is not rejected: it is fulfilled with the empty list. *)
Theorem search_inverted_bounds_empty
        (params : SearchParams) (lo hi : JS.number) (st : Store) :
  minPrice params = Some lo ->
  maxPrice params = Some hi ->
  JS.gt lo hi = true ->
  searchProducts params st = (Fulfilled [], st).
Proof.
  intros Hlo Hhi Hgt. rewrite searchProducts_run.
  replace (filter (selected params) st) with (@nil Product); [reflexivity|].
  symmetry. induction st as [|p st IH]; simpl; [reflexivity|].
  destruct (selected params p) eqn:Hsel; [exfalso|exact IH].
  unfold selected, minStage, maxStage in Hsel. rewrite Hlo, Hhi in Hsel.
  rewrite !andb_true_iff in Hsel. destruct Hsel as [[_ Hmin] Hmax].
  unfold minPriceMatch in Hmin. unfold maxPriceMatch in Hmax.
  destruct (price p) as [pr|]; [|discriminate].
  exact (bounds_exclusive lo hi (value pr) Hgt Hmin Hmax).
Qed.

Lemma search_inverted_bounds_empty_witness :
  JS.gt 300%float 100%float = true
  /\ searchProducts
       (mkSearchParams None None (Some 300%float) (Some 100%float) None)
       MOCK_PRODUCTS
     = (Fulfilled [], MOCK_PRODUCTS).
Proof.
  split; [reflexivity|].
  apply (search_inverted_bounds_empty _ 300%float 100%float);
    reflexivity.
Defined.

(** C8: each of the three operations is fulfilled, leaves the store (the
    catalog and every product in it) exactly as it found it, and, called a
    second time with the same input, answers what it answered the first
    time. *)
Theorem operations_read_only :
  (forall params, readOnly (searchProducts params))
  /\ (forall id, readOnly (getProductByASIN id))
  /\ readOnly getFeaturedProducts.
Proof.
  repeat split; intros; intro st; eexists.
  - split; [apply searchProducts_run|apply twice_run, searchProducts_run].
  - split; [apply getProductByASIN_run|apply twice_run, getProductByASIN_run].
  - split; [apply getFeaturedProducts_run
           |apply twice_run, getFeaturedProducts_run].
Qed.

(** C9: two criteria that agree on [keywords], [minPrice] and [maxPrice]
    give the same search outcome, whatever their [category] and [page]. *)
Theorem search_ignores_category_and_page
        (c1 c2 : SearchParams) (st : Store) :
  keywords c1 = keywords c2 ->
  minPrice c1 = minPrice c2 ->
  maxPrice c1 = maxPrice c2 ->
  searchProducts c1 st = searchProducts c2 st.
Proof.
  intros Hk Hlo Hhi. cbv [searchProducts bind delay readProducts ret].
  rewrite Hk, Hlo, Hhi. reflexivity.
Qed.

Lemma search_ignores_category_and_page_witness :
  searchProducts
    (mkSearchParams (Some "sony") (Some "Electronics") (Some 100%float)
                    None (Some 1%float))
    MOCK_PRODUCTS
  = searchProducts
      (mkSearchParams (Some "sony") (Some "Books") (Some 100%float)
                      None (Some 7%float))
      MOCK_PRODUCTS.
Proof.
  apply search_ignores_category_and_page; reflexivity.
Defined.

(** C10: whatever the criteria, the search is fulfilled with a subsequence
    of the stored list: its products are read off the stored list at
    strictly increasing positions, so two products of the result stand in
    their stored order and no stored entry is returned twice; when the
    stored products are pairwise distinct, so are the returned ones. *)
Theorem search_result_subsequence (params : SearchParams) (st : Store) :
  exists r,
    searchProducts params st = (Fulfilled r, st)
    /\ Subsequence r st
    /\ (exists idx, StronglySorted lt idx
                    /\ map (nth_error st) idx = map Some r)
    /\ (NoDup st -> NoDup r).
Proof.
  exists (filter (selected params) st).
  split; [apply searchProducts_run|].
  split; [apply Subsequence_filter|].
  split; [apply Subsequence_positions, Subsequence_filter|].
  apply NoDup_filter.
Qed.


(** ** More on lists, strings and numbers *)

Section MoreLists.
Context {A : Type}.

Lemma Subsequence_filter_impl (f g : A -> bool) (l : list A) :
  (forall x, f x = true -> g x = true) ->
  Subsequence (filter f l) (filter g l).
Proof.
  intros Himp. induction l as [|x l IH]; simpl; [constructor|].
  destruct (f x) eqn:Hf.
  - rewrite (Himp x Hf). apply sub_keep. exact IH.
  - destruct (g x); [apply sub_skip|]; exact IH.
Qed.

Lemma find_first_match (f : A -> bool) (l : list A) (p : A) :
  find f l = Some p <->
  exists before after,
    l = (before ++ p :: after)%list /\ f p = true
    /\ Forall (fun q => f q = false) before.
Proof.
  induction l as [|x l IH]; simpl.
  - split; [discriminate|]. intros [[|b before] [after [H _]]]; discriminate.
  - destruct (f x) eqn:Hf.
    + split.
      * intros [= <-]. exists [], l. auto.
      * intros [[|b before] [after [Hl [Hp Hall]]]]; simpl in Hl.
        -- congruence.
        -- injection Hl as <- _. inversion Hall; congruence.
    + rewrite IH. split.
      * intros [before [after [-> [Hp Hall]]]].
        exists (x :: before), after. auto.
      * intros [[|b before] [after [Hl [Hp Hall]]]]; simpl in Hl.
        -- congruence.
        -- injection Hl as <- ->. inversion Hall; subst. eauto.
Qed.

Lemma find_none_iff (f : A -> bool) (l : list A) :
  find f l = None <-> Forall (fun q => f q = false) l.
Proof.
  induction l as [|x l IH]; simpl.
  - split; [constructor|reflexivity].
  - destruct (f x) eqn:Hf.
    + split; [discriminate|]. intros H. inversion H; congruence.
    + rewrite IH. split; [constructor; assumption|].
      intros H. inversion H; assumption.
Qed.

End MoreLists.

Section MoreStrings.

Lemma substringOf_trans (a b c : string) :
  substringOf a b -> substringOf b c -> substringOf a c.
Proof.
  intros [p1 [q1 ->]] [p2 [q2 ->]].
  exists (p2 ++ p1), (q1 ++ q2).
  rewrite !append_assoc. reflexivity.
Qed.

Lemma substringOf_empty (a : string) :
  substringOf a EmptyString -> a = EmptyString.
Proof.
  intros [[|c p] [q H]]; simpl in H; [|discriminate].
  destruct a; [reflexivity|discriminate].
Qed.

End MoreStrings.

Section MoreNumbers.

Ltac order_cases' :=
  repeat match goal with
    | H : context [Pos.compare_cont Eq ?m ?n] |- _ =>
        change (Pos.compare_cont Eq m n) with (Pos.compare m n) in H;
        destruct (Pos.compare_spec m n); simpl in H
    | H : context [Z.compare ?m ?n] |- _ =>
        destruct (Z.compare_spec m n); simpl in H
    | |- context [Pos.compare_cont Eq ?m ?n] =>
        change (Pos.compare_cont Eq m n) with (Pos.compare m n);
        destruct (Pos.compare_spec m n); simpl
    | |- context [Z.compare ?m ?n] =>
        destruct (Z.compare_spec m n); simpl
    end.

Lemma atLeast_trans (a b c : spec_float) :
  atLeast a b -> atLeast b c -> atLeast a c.
Proof.
  unfold atLeast.
  destruct a as [[]|[]| |[] ma ea], b as [[]|[]| |[] mb eb],
           c as [[]|[]| |[] mc ec];
    simpl; intros [Hab|Hab] [Hbc|Hbc]; try discriminate; auto;
    order_cases'; try discriminate; subst; auto; try lia.
Qed.

Lemma atLeast_both (a b : spec_float) :
  atLeast a b -> atLeast b a -> SFcompare a b = Some Eq.
Proof.
  unfold atLeast.
  destruct a as [[]|[]| |[] ma ea], b as [[]|[]| |[] mb eb];
    simpl; intros [Hab|Hab] [Hba|Hba]; try discriminate; auto;
    order_cases'; try discriminate; subst; auto; try lia.
Qed.

Lemma same_atLeast (a b : spec_float) :
  SFcompare a b = Some Eq -> atLeast a b /\ atLeast b a.
Proof.
  unfold atLeast.
  destruct a as [[]|[]| |[] ma ea], b as [[]|[]| |[] mb eb];
    simpl; intros Hab; try discriminate; auto;
    order_cases'; try discriminate; subst; auto; try lia.
Qed.

Lemma ge_atLeast (x y : JS.number) :
  JS.ge x y = true <-> atLeast (Prim2SF x) (Prim2SF y).
Proof.
  unfold JS.ge, JS.IsLessThan, atLeast.
  destruct (SFcompare (Prim2SF x) (Prim2SF y)) as [[]|];
    split; intros H; auto; try discriminate; destruct H; discriminate.
Qed.

Lemma le_atLeast (x y : JS.number) :
  JS.le x y = true <-> atLeast (Prim2SF y) (Prim2SF x).
Proof.
  unfold JS.le, JS.IsLessThan, atLeast.
  destruct (SFcompare (Prim2SF y) (Prim2SF x)) as [[]|];
    split; intros H; auto; try discriminate; destruct H; discriminate.
Qed.

Lemma nan_reading (x : JS.number) :
  PrimFloat.is_nan x = true -> Prim2SF x = S754_nan.
Proof. intros H. unfold Prim2SF. rewrite H. reflexivity. Qed.

Lemma nan_not_ge (v x : JS.number) :
  PrimFloat.is_nan x = true -> JS.ge v x = false.
Proof.
  intros H. unfold JS.ge, JS.IsLessThan. rewrite (nan_reading x H).
  destruct (Prim2SF v); reflexivity.
Qed.

Lemma nan_not_le (v x : JS.number) :
  PrimFloat.is_nan x = true -> JS.le v x = false.
Proof.
  intros H. unfold JS.le, JS.IsLessThan. rewrite (nan_reading x H).
  reflexivity.
Qed.

End MoreNumbers.

(** ** Running the pages *)

Section PageRuns.
Variable toLocaleString : JS.number -> string.

Lemma filter_none {A : Type} (f : A -> bool) (l : list A) :
  (forall x, In x l -> f x = false) -> filter f l = [].
Proof.
  induction l as [|x l IH]; simpl; intros H; [reflexivity|].
  rewrite (H x (or_introl eq_refl)). apply IH. intros y Hy. apply H. auto.
Qed.

Lemma firstn_In {A : Type} (n : nat) (l : list A) (x : A) :
  In x (firstn n l) -> In x l.
Proof.
  intros H. rewrite <- (firstn_skipn n l). apply in_or_app. auto.
Qed.

Lemma ProductPage_found (id : string) (st : Store) (p : Product) :
  find (fun q => (asin q =? id)%string) st = Some p ->
  exists d,
    ProductPage toLocaleString id st = (Fulfilled d, st)
    /\ detailCrumb d = title p /\ detailTitle d = title p
    /\ detailAlt d = title p
    /\ detailImage d = imageSource p
    /\ detailPrice d = priceLine p
    /\ detailFeatures d = featureList p
    /\ detailBuy d = detailPageURL p
    /\ detailRating d
       = andNumber (rating p) (fun r =>
           {| starClasses := starRow "w-5 h-5" r;
              ratingShown := r;
              reviewsShown :=
                andNumber (reviewCount p)
                  (fun n => "(" ++ toLocaleString n ++ " reviews)") |}).
Proof.
  intros Hfind. unfold ProductPage, bind.
  rewrite getProductByASIN_run, Hfind. eexists. split; [reflexivity|].
  repeat split.
Qed.

Lemma ProductPage_missing (id : string) (st : Store) :
  find (fun q => (asin q =? id)%string) st = None ->
  ProductPage toLocaleString id st = notFound st.
Proof.
  intros Hfind. unfold ProductPage, bind.
  rewrite getProductByASIN_run, Hfind. reflexivity.
Qed.

Lemma find_asin_present (id : string) (st : Store) :
  In id (map asin st) ->
  exists p, find (fun q => (asin q =? id)%string) st = Some p.
Proof.
  intros Hin. destruct (find (fun q => (asin q =? id)%string) st) eqn:Hf;
    [eauto|].
  exfalso. apply in_map_iff in Hin as [q [Hq Hin]].
  apply (find_none _ _ Hf) in Hin. simpl in Hin.
  rewrite Hq, String.eqb_refl in Hin. discriminate.
Qed.

Lemma starRow_shape (size : string) (r : JS.number) :
  starRow size r
  = List.app
      (repeat (size ++ " fill-yellow-400 text-yellow-400")
              (filledCount (Math_floor r)))
      (repeat (size ++ " text-gray-300")
              (5 - filledCount (Math_floor r))).
Proof.
  unfold starRow, starClass, starFilled.
  destruct (Math_floor r) as [|z| |]; try reflexivity.
  assert (z <= 0 \/ z = 1 \/ z = 2 \/ z = 3 \/ z = 4 \/ 5 <= z)%Z
    as Hz by lia.
  destruct Hz as [Hz|[->|[->|[->|[->|Hz]]]]]; try reflexivity.
  - replace (filledCount (Int z)) with 0 by (simpl; lia).
    simpl. unfold indexBelow.
    repeat match goal with
           | |- context [(?a <? z)%Z] =>
               destruct (Z.ltb_spec a z); try lia
           end.
    reflexivity.
  - replace (filledCount (Int z)) with 5 by (simpl; lia).
    simpl. unfold indexBelow.
    repeat match goal with
           | |- context [(?a <? z)%Z] =>
               destruct (Z.ltb_spec a z); try lia
           end.
    reflexivity.
Qed.

Lemma ratingSlot_holds (size : string) (rating reviews : option JS.number)
      (text : JS.number -> string) :
  ratingSlotFor size rating
    (andNumber rating (fun r =>
       {| starClasses := starRow size r;
          ratingShown := r;
          reviewsShown := andNumber reviews text |})).
Proof.
  unfold ratingSlotFor, andNumber. destruct rating as [r|]; [|reflexivity].
  destruct (truthyNumber r); [|reflexivity].
  eexists. split; [reflexivity|]. split; [reflexivity|].
  apply starRow_shape.
Qed.

Lemma combine_seq_fst {A : Type} (l : list A) (s : nat) :
  map fst (combine (seq s (List.length l)) l) = seq s (List.length l).
Proof.
  revert s. induction l as [|x l IH]; intros s; simpl; [reflexivity|].
  rewrite IH. reflexivity.
Qed.

Lemma combine_seq_snd {A : Type} (l : list A) (s : nat) :
  map snd (combine (seq s (List.length l)) l) = l.
Proof.
  revert s. induction l as [|x l IH]; intros s; simpl; [reflexivity|].
  rewrite IH. reflexivity.
Qed.

Lemma ProductResults_run (query : option string) (st : Store) :
  ProductResults query st
  = (Fulfilled
       {| resultsSummary :=
            andString query (fun q =>
              {| summaryQuery := q;
                 summaryCount :=
                   List.length (filter (selected (keywordsOnly query)) st);
                 summaryPlural :=
                   if negb (List.length
                              (filter (selected (keywordsOnly query)) st)
                            =? 1)%nat
                   then "s" else EmptyString |});
          resultsGrid := filter (selected (keywordsOnly query)) st |},
     st).
Proof.
  unfold ProductResults, bind. fold (keywordsOnly query).
  rewrite searchProducts_run. reflexivity.
Qed.

Lemma selected_keywordsOnly (q : string) (p : Product) :
  q <> EmptyString ->
  selected (keywordsOnly (Some q)) p = true <-> keywordHolds q p.
Proof.
  intros Hq. unfold selected, keywordStage, minStage, maxStage. simpl.
  rewrite (truthy_nonempty q Hq), !andb_true_r. apply keywordMatch_spec.
Qed.

End PageRuns.

(** ** Further properties of the catalog service *)

(** X1: the three filters are independent: a product is in the result of
    a search exactly when it is in the result of the search by the
    keywords alone, of the search by the lower bound alone and of the
    search by the upper bound alone; and the result is a subsequence of
    each of the three. *)
Theorem search_filters_independent
        (k c : option string) (lo hi pg : option JS.number) (st : Store) :
  exists r rk rlo rhi,
    searchProducts (mkSearchParams k c lo hi pg) st = (Fulfilled r, st)
    /\ searchProducts (mkSearchParams k None None None None) st
       = (Fulfilled rk, st)
    /\ searchProducts (mkSearchParams None None lo None None) st
       = (Fulfilled rlo, st)
    /\ searchProducts (mkSearchParams None None None hi None) st
       = (Fulfilled rhi, st)
    /\ (forall p, In p r <-> In p rk /\ In p rlo /\ In p rhi)
    /\ Subsequence r rk /\ Subsequence r rlo /\ Subsequence r rhi.
Proof.
  do 4 eexists. rewrite !searchProducts_run.
  do 4 (split; [reflexivity|]).
  split; [|repeat split; apply Subsequence_filter_impl; intros p;
           unfold selected, keywordStage, minStage, maxStage; simpl;
           rewrite !andb_true_iff; tauto].
  intros p. rewrite !filter_In.
  unfold selected, keywordStage, minStage, maxStage; simpl.
  rewrite !andb_true_iff. tauto.
Qed.

(** X2: widening the price range never loses a product: when
    [lo' <= lo] and [hi <= hi'], the result for the range [lo..hi] is a
    subsequence of the result for the range [lo'..hi'], the other criteria
    being equal. *)
Theorem search_wider_bounds
        (k c : option string) (pg : option JS.number)
        (lo lo' hi hi' : JS.number) (st : Store) :
  JS.le lo' lo = true ->
  JS.le hi hi' = true ->
  exists narrow wide,
    searchProducts (mkSearchParams k c (Some lo) (Some hi) pg) st
    = (Fulfilled narrow, st)
    /\ searchProducts (mkSearchParams k c (Some lo') (Some hi') pg) st
       = (Fulfilled wide, st)
    /\ Subsequence narrow wide.
Proof.
  intros Hlo Hhi. do 2 eexists. rewrite !searchProducts_run.
  do 2 (split; [reflexivity|]).
  apply Subsequence_filter_impl. intros p.
  unfold selected, keywordStage, minStage, maxStage,
    minPriceMatch, maxPriceMatch; simpl.
  rewrite !andb_true_iff. intros [[Hk Hmin] Hmax].
  destruct (price p) as [pr|]; [|discriminate].
  apply le_atLeast in Hlo, Hhi, Hmax. apply ge_atLeast in Hmin.
  repeat split; [exact Hk| |].
  - apply ge_atLeast. exact (atLeast_trans _ _ _ Hmin Hlo).
  - apply le_atLeast. exact (atLeast_trans _ _ _ Hhi Hmax).
Qed.

Lemma search_wider_bounds_witness :
  exists narrow wide,
    searchProducts
      (mkSearchParams None None (Some 100%float) (Some 300%float) None)
      MOCK_PRODUCTS
    = (Fulfilled narrow, MOCK_PRODUCTS)
    /\ searchProducts
         (mkSearchParams None None (Some 50%float) (Some 400%float) None)
         MOCK_PRODUCTS
       = (Fulfilled wide, MOCK_PRODUCTS)
    /\ Subsequence narrow wide.
Proof.
  apply (search_wider_bounds None None None
           100%float 50%float 300%float 400%float MOCK_PRODUCTS);
    reflexivity.
Defined.

(** X3: typing more narrows the search: when the keywords [k1] occur in
    the keywords [k2], letter case aside, every product found for [k2] is
    found for [k1], in the same order, the other criteria being equal. *)
Theorem search_longer_keywords_narrow
        (k1 k2 : string) (c : option string) (lo hi pg : option JS.number)
        (st : Store) :
  substringOf (JS.toLowerCase k1) (JS.toLowerCase k2) ->
  exists r1 r2,
    searchProducts (mkSearchParams (Some k1) c lo hi pg) st
    = (Fulfilled r1, st)
    /\ searchProducts (mkSearchParams (Some k2) c lo hi pg) st
       = (Fulfilled r2, st)
    /\ Subsequence r2 r1.
Proof.
  intros Hsub. do 2 eexists. rewrite !searchProducts_run.
  do 2 (split; [reflexivity|]).
  apply Subsequence_filter_impl. intros p.
  unfold selected, keywordStage; simpl.
  rewrite !andb_true_iff. intros [[Hk Hmin] Hmax].
  repeat split; [|exact Hmin|exact Hmax].
  destruct (JS.truthy k1) eqn:H1; [|reflexivity].
  destruct (JS.truthy k2) eqn:H2.
  - apply keywordMatch_spec. apply keywordMatch_spec in Hk.
    destruct Hk as [Ht|[b [Hb Ht]]].
    + left. exact (substringOf_trans _ _ _ Hsub Ht).
    + right. exists b. split; [exact Hb|].
      exact (substringOf_trans _ _ _ Hsub Ht).
  - destruct k2; [|discriminate]. simpl in Hsub.
    apply substringOf_empty, toLowerCase_empty in Hsub.
    subst k1. discriminate.
Qed.

Lemma search_longer_keywords_narrow_witness :
  exists r1 r2,
    searchProducts (mkSearchParams (Some "POD") None None None None)
                   MOCK_PRODUCTS
    = (Fulfilled r1, MOCK_PRODUCTS)
    /\ searchProducts (mkSearchParams (Some "AirPods") None None None None)
                      MOCK_PRODUCTS
       = (Fulfilled r2, MOCK_PRODUCTS)
    /\ Subsequence r2 r1.
Proof.
  apply (search_longer_keywords_narrow "POD" "AirPods").
  exists "air", "s". reflexivity.
Defined.

(** X4: a [NaN] bound matches nothing: when [minPrice] or [maxPrice] is
    [NaN] the search is fulfilled with the empty list. *)
Theorem search_nan_bound_empty
        (params : SearchParams) (x : JS.number) (st : Store) :
  PrimFloat.is_nan x = true ->
  minPrice params = Some x \/ maxPrice params = Some x ->
  searchProducts params st = (Fulfilled [], st).
Proof.
  intros Hnan Hb. rewrite searchProducts_run.
  rewrite filter_none; [reflexivity|]. intros p _.
  unfold selected, minStage, maxStage, minPriceMatch, maxPriceMatch.
  destruct Hb as [-> | ->]; destruct (price p) as [pr|];
    rewrite ?(nan_not_ge _ x Hnan), ?(nan_not_le _ x Hnan),
      ?andb_false_r; reflexivity.
Qed.

Lemma search_nan_bound_empty_witness :
  searchProducts (mkSearchParams None None None (Some nan) None)
                 MOCK_PRODUCTS
  = (Fulfilled [], MOCK_PRODUCTS).
Proof.
  apply (search_nan_bound_empty _ nan); [reflexivity|right; reflexivity].
Defined.

(** X5: equal bounds select one price: with [minPrice] and [maxPrice]
    both [x], a product is in the result exactly when it is in the result
    of the same search without bounds and has a price whose value is
    [=== x]. *)
Theorem search_equal_bounds
        (k c : option string) (pg : option JS.number) (x : JS.number)
        (st : Store) :
  exists r rk,
    searchProducts (mkSearchParams k c (Some x) (Some x) pg) st
    = (Fulfilled r, st)
    /\ searchProducts (mkSearchParams k c None None pg) st
       = (Fulfilled rk, st)
    /\ forall p, In p r <->
                 In p rk
                 /\ exists pr, price p = Some pr
                               /\ strictEquals (value pr) x = true.
Proof.
  do 2 eexists. rewrite !searchProducts_run.
  do 2 (split; [reflexivity|]). intros p. rewrite !filter_In.
  unfold selected, minStage, maxStage, minPriceMatch, maxPriceMatch,
    strictEquals; simpl.
  rewrite ?andb_true_r, !andb_true_iff. split.
  - intros [Hin [[Hk Hmin] Hmax]]. split; [auto|].
    destruct (price p) as [pr|]; [|discriminate].
    exists pr. split; [reflexivity|].
    apply ge_atLeast in Hmin. apply le_atLeast in Hmax.
    rewrite (atLeast_both _ _ Hmin Hmax). reflexivity.
  - intros [[Hin Hk] [pr [-> Heq]]].
    destruct (SFcompare (Prim2SF (value pr)) (Prim2SF x)) as [[]|] eqn:Hc;
      try discriminate.
    destruct (same_atLeast _ _ Hc) as [H1 H2].
    repeat split; auto; [apply ge_atLeast|apply le_atLeast]; assumption.
Qed.

Lemma search_without_filters_witness :
  searchProducts
    (mkSearchParams (Some EmptyString) (Some "Electronics") None None
                    (Some 2%float))
    MOCK_PRODUCTS
  = (Fulfilled MOCK_PRODUCTS, MOCK_PRODUCTS).
Proof.
  apply search_without_filters; [right; reflexivity|reflexivity..].
Defined.

(** X7: whatever the catalog, also one with repeated identifiers: a lookup
    is fulfilled with a product exactly when that product is the first
    stored one with the identifier, and with [null] exactly when no stored
    product has it. *)
Theorem getProductByASIN_first_match (id : string) (st : Store) :
  (forall p,
     getProductByASIN id st = (Fulfilled (Some p), st) <->
     exists before after,
       st = (before ++ p :: after)%list /\ asin p = id
       /\ Forall (fun q => asin q <> id) before)
  /\ (getProductByASIN id st = (Fulfilled None, st) <->
      Forall (fun q => asin q <> id) st).
Proof.
  rewrite getProductByASIN_run. split.
  - intros p. split.
    + intros [= H]. apply find_first_match in H
        as [before [after [Hst [Hp Hall]]]].
      exists before, after. split; [exact Hst|].
      split; [apply String.eqb_eq, Hp|].
      eapply Forall_impl; [|exact Hall]. simpl. intros q Hq.
      apply String.eqb_neq, Hq.
    + intros [before [after [Hst [Hp Hall]]]].
      f_equal. f_equal. apply find_first_match.
      exists before, after. split; [exact Hst|].
      split; [apply String.eqb_eq, Hp|].
      eapply Forall_impl; [|exact Hall]. simpl. intros q Hq.
      apply String.eqb_neq, Hq.
  - split.
    + intros [= H]. apply find_none_iff in H.
      eapply Forall_impl; [|exact H]. simpl. intros q Hq.
      apply String.eqb_neq, Hq.
    + intros H. f_equal. f_equal. apply find_none_iff.
      eapply Forall_impl; [|exact H]. simpl. intros q Hq.
      apply String.eqb_neq, Hq.
Qed.

(** ** Properties of the pages *)

(** X8: no dead links: in a catalog with unique identifiers, every
    product the listing page or the home page shows has a card whose link
    names its identifier, and the detail page of that identifier is
    fulfilled and shows the same title, image, price and outbound link as
    the card. *)
Theorem listed_products_open
        (toLocaleString : JS.number -> string)
        (q : option string) (st : Store) (p : Product) :
  NoDup (map asin st) ->
  (exists res, ProductResults q st = (Fulfilled res, st)
               /\ In p (resultsGrid res))
  \/ (exists ps, Home st = (Fulfilled ps, st) /\ In p ps) ->
  cardHref (ProductCard toLocaleString p) = "/product/" ++ asin p
  /\ exists d,
       ProductPage toLocaleString (asin p) st = (Fulfilled d, st)
       /\ detailTitle d = cardTitle (ProductCard toLocaleString p)
       /\ detailImage d = cardImage (ProductCard toLocaleString p)
       /\ detailPrice d = cardPrice (ProductCard toLocaleString p)
       /\ detailBuy d = cardBuy (ProductCard toLocaleString p).
Proof.
  intros Hnd Hshown. split; [reflexivity|].
  assert (In p st) as Hin.
  { destruct Hshown as [[res [Hres Hp]]|[ps [Hps Hp]]].
    - rewrite ProductResults_run in Hres. injection Hres as <-.
      simpl in Hp. apply filter_In in Hp. tauto.
    - assert (Home st = (Fulfilled (firstn 4 st), st)) as Hrun
        by reflexivity.
      rewrite Hrun in Hps. injection Hps as <-.
      exact (firstn_In 4 st p Hp). }
  destruct (ProductPage_found toLocaleString (asin p) st p
              (find_asin_unique st p Hnd Hin))
    as [d [Hd [_ [Ht [_ [Hi [Hp [_ [Hb _]]]]]]]]].
  exists d. simpl. auto.
Qed.

Lemma listed_products_open_witness :
  cardHref (ProductCard (fun _ => "15,420") (hd plainProduct MOCK_PRODUCTS))
  = "/product/B08N5WRWNW"
  /\ exists d,
       ProductPage (fun _ => "15,420") "B08N5WRWNW" MOCK_PRODUCTS
       = (Fulfilled d, MOCK_PRODUCTS)
       /\ detailTitle d = "Apple AirPods Pro (2nd Generation)".
Proof.
  destruct (listed_products_open (fun _ => "15,420") (Some "airpods")
              MOCK_PRODUCTS (hd plainProduct MOCK_PRODUCTS)
              MOCK_PRODUCTS_unique) as [Hhref [d [Hd [Ht _]]]].
  - left. eexists. split; [apply ProductResults_run|].
    left. reflexivity.
  - split; [exact Hhref|]. exists d. split; [exact Hd|exact Ht].
Defined.

(** X9: the detail page answers 404 exactly when no stored product has
    the requested identifier; otherwise it is fulfilled and shows a stored
    product with that identifier.  The store is left as it was either
    way. *)
Theorem ProductPage_found_or_404
        (toLocaleString : JS.number -> string) (id : string) (st : Store) :
  (ProductPage toLocaleString id st = notFound st
   <-> ~ In id (map asin st))
  /\ (In id (map asin st) ->
      exists d p,
        ProductPage toLocaleString id st = (Fulfilled d, st)
        /\ In p st /\ asin p = id
        /\ detailTitle d = title p
        /\ detailBuy d = detailPageURL p).
Proof.
  assert (In id (map asin st) ->
          exists d p,
            ProductPage toLocaleString id st = (Fulfilled d, st)
            /\ In p st /\ asin p = id
            /\ detailTitle d = title p
            /\ detailBuy d = detailPageURL p) as Hfound.
  { intros Hin. destruct (find_asin_present id st Hin) as [p Hp].
    destruct (ProductPage_found toLocaleString id st p Hp)
      as [d [Hd [_ [Ht [_ [_ [_ [_ [Hb _]]]]]]]]].
    destruct (find_asin_sound st id p Hp) as [Hid Hpin].
    exists d, p. auto. }
  split; [|exact Hfound]. split.
  - intros H404 Hin. destruct (Hfound Hin) as [d [p [Hd _]]].
    rewrite Hd in H404. discriminate.
  - intros Hout. apply ProductPage_missing, find_asin_absent, Hout.
Qed.

(** X10: without a query, or with the empty query, the listing page is
    headed "All Products", shows no result summary and lists the whole
    catalog in stored order. *)
Theorem listing_without_query (q : option string) (st : Store) :
  q = None \/ q = Some EmptyString ->
  exists res,
    ProductsPage q st
    = (Fulfilled {| listingHeading := "All Products";
                    listingResults := res |}, st)
    /\ resultsGrid res = st
    /\ forall s, resultsSummary res <> Element s.
Proof.
  intros Hq. unfold ProductsPage, bind. rewrite ProductResults_run.
  eexists. split; [destruct Hq as [-> | ->]; reflexivity|].
  split.
  - simpl. destruct Hq as [-> | ->]; apply filter_true.
  - intros s. destruct Hq as [-> | ->]; discriminate.
Qed.

Lemma listing_without_query_witness :
  exists res,
    ProductsPage (Some EmptyString) MOCK_PRODUCTS
    = (Fulfilled {| listingHeading := "All Products";
                    listingResults := res |}, MOCK_PRODUCTS)
    /\ resultsGrid res = MOCK_PRODUCTS
    /\ forall s, resultsSummary res <> Element s.
Proof.
  apply listing_without_query. right. reflexivity.
Defined.

(** X11: with a non-empty query [q] the listing page is headed "Search
    Results"; it lists, in stored order, exactly the stored products whose
    lowered title or lowered brand contains the lowered [q]; and its
    summary repeats [q], counts the listed products, and says "products"
    unless exactly one is listed. *)
Theorem listing_with_query (q : string) (st : Store) :
  q <> EmptyString ->
  exists grid plural,
    ProductsPage (Some q) st
    = (Fulfilled
         {| listingHeading := "Search Results";
            listingResults :=
              {| resultsSummary :=
                   Element {| summaryQuery := q;
                              summaryCount := List.length grid;
                              summaryPlural := plural |};
                 resultsGrid := grid |} |}, st)
    /\ Subsequence grid st
    /\ (forall p, In p grid <-> In p st /\ keywordHolds q p)
    /\ (List.length grid = 1 -> plural = EmptyString)
    /\ (List.length grid <> 1 -> plural = "s").
Proof.
  intros Hq. unfold ProductsPage, bind. rewrite ProductResults_run.
  exists (filter (selected (keywordsOnly (Some q))) st).
  eexists. unfold andString. rewrite (truthy_nonempty q Hq).
  split; [reflexivity|].
  split; [apply Subsequence_filter|].
  split.
  - intros p. rewrite filter_In, (selected_keywordsOnly q p Hq). tauto.
  - split; intros Hlen.
    + rewrite Hlen. reflexivity.
    + apply Nat.eqb_neq in Hlen. rewrite Hlen. reflexivity.
Qed.

Lemma listing_with_query_witness :
  exists grid plural,
    ProductsPage (Some "wireless") MOCK_PRODUCTS
    = (Fulfilled
         {| listingHeading := "Search Results";
            listingResults :=
              {| resultsSummary :=
                   Element {| summaryQuery := "wireless";
                              summaryCount := List.length grid;
                              summaryPlural := plural |};
                 resultsGrid := grid |} |}, MOCK_PRODUCTS)
    /\ Subsequence grid MOCK_PRODUCTS
    /\ (forall p, In p grid <-> In p MOCK_PRODUCTS /\ keywordHolds "wireless" p)
    /\ (List.length grid = 1 -> plural = EmptyString)
    /\ (List.length grid <> 1 -> plural = "s").
Proof.
  apply (listing_with_query "wireless" MOCK_PRODUCTS). discriminate.
Defined.

(** X12: the rating of a card and of a detail page: nothing for a
    product without a rating; the bare number, and no stars, for a rating
    of [0] or [NaN]; otherwise five stars of which the first
    min(5, max(0, floor rating)) are filled and the others are not. *)
Theorem rating_slot_shape (toLocaleString : JS.number -> string) :
  (forall p,
     ratingSlotFor "w-4 h-4" (rating p)
                   (cardRating (ProductCard toLocaleString p)))
  /\ (forall id st d,
        ProductPage toLocaleString id st = (Fulfilled d, st) ->
        exists shown,
          In shown st /\ asin shown = id
          /\ ratingSlotFor "w-5 h-5" (rating shown) (detailRating d)).
Proof.
  split; [intros p; apply ratingSlot_holds|].
  intros id st d Hd.
  destruct (find (fun q => (asin q =? id)%string) st) as [shown|]
    eqn:Hfind.
  - destruct (ProductPage_found toLocaleString id st shown Hfind)
      as [d' [Hd' [_ [_ [_ [_ [_ [_ [_ Hr]]]]]]]]].
    rewrite Hd' in Hd. injection Hd as <-.
    destruct (find_asin_sound st id shown Hfind) as [Hid Hin].
    exists shown. rewrite Hr. repeat split; auto.
    apply ratingSlot_holds.
  - rewrite (ProductPage_missing toLocaleString id st Hfind) in Hd.
    discriminate.
Qed.

Example rating_zero_card :
  cardRating
    (ProductCard (fun _ => "0")
       {| asin := "B000000002"; title := "Unrated Lamp"; price := None;
          images := None; rating := Some 0%float;
          reviewCount := Some 0%float; isPrime := Some false;
          detailPageURL := "https://amazon.com/dp/B000000002";
          availability := Some "Out of Stock"; brand := Some EmptyString;
          features := Some [] |})
  = NumberChild 0%float.
Proof. reflexivity. Qed.

Example rating_of_seed_card :
  option_map (fun p => cardRating (ProductCard (fun _ => "15,420") p))
             (nth_error MOCK_PRODUCTS 0)
  = Some (Element
            {| starClasses :=
                 [ "w-4 h-4 fill-yellow-400 text-yellow-400";
                   "w-4 h-4 fill-yellow-400 text-yellow-400";
                   "w-4 h-4 fill-yellow-400 text-yellow-400";
                   "w-4 h-4 fill-yellow-400 text-yellow-400";
                   "w-4 h-4 text-gray-300" ];
               ratingShown := 4.7%float;
               reviewsShown := Element "(15,420)" |}).
Proof. reflexivity. Qed.

Example out_of_stock_is_green :
  stockColour "Out of Stock" = "text-green-600"
  /\ stockColour "Currently unavailable" = "text-red-600".
Proof. split; reflexivity. Qed.

(** X13: the image of a card or detail page is never the empty string:
    it is the large primary image when the product has a non-empty one,
    and the placeholder otherwise. *)
Theorem imageSource_never_empty (p : Product) :
  imageSource p <> EmptyString
  /\ ((exists im, images p = Some im
                  /\ large (primary im) <> EmptyString
                  /\ imageSource p = large (primary im))
      \/ ((images p = None
           \/ exists im, images p = Some im
                         /\ large (primary im) = EmptyString)
          /\ imageSource p = "/placeholder.png")).
Proof.
  unfold imageSource. destruct (images p) as [im|].
  - destruct (large (primary im)) as [|c s] eqn:Hl; simpl.
    + split; [discriminate|]. right. split; [|reflexivity].
      right. exists im. auto.
    + split; [discriminate|]. left. exists im.
      rewrite Hl. repeat split. discriminate.
  - split; [discriminate|]. right. split; [left|]; reflexivity.
Qed.

(** X14: an availability text that contains the word "stock", spelt in
    any case of the letters A-Z and standing anywhere in the text, is
    shown green: "Out of Stock" is green as well.  The colour does not
    depend on the case of the letters A-Z; a text is green exactly when
    its lower-case form contains "stock", and red otherwise. *)
Theorem stockColour_stock_is_green :
  (forall pre w post,
     caseVariant "stock" w = true ->
     stockColour (pre ++ w ++ post) = "text-green-600")
  /\ (forall a a',
        caseVariant a a' = true -> stockColour a = stockColour a')
  /\ (forall a,
        (stockColour a = "text-green-600"
         <-> substringOf "stock" (JS.toLowerCase a))
        /\ (stockColour a <> "text-green-600" ->
            stockColour a = "text-red-600")).
Proof.
  split; [|split].
  - intros pre w post Hw. unfold stockColour.
    assert (JS.includes (JS.toLowerCase (pre ++ w ++ post)) "stock" = true)
      as Hyes.
    { apply includes_spec, lower_word_found; [exact Hw|].
      intros a Ha. simpl in Ha.
      repeat (destruct Ha as [<-|Ha]; [reflexivity|]). destruct Ha. }
    rewrite Hyes. reflexivity.
  - intros a a' Hv. unfold stockColour.
    rewrite (caseVariant_lower a a' Hv). reflexivity.
  - intros a. unfold stockColour. rewrite <- includes_spec.
    destruct (JS.includes (JS.toLowerCase a) "stock").
    + split; [split; reflexivity|congruence].
    + split; [split; discriminate|reflexivity].
Qed.

Example kelvin_sign_is_green :
  stockColour "In StocK" = "text-green-600".
Proof. reflexivity. Qed.

(** X15: the feature list of the detail page: no list for a product
    without features or with an empty array of them; otherwise every
    feature once, in stored order, keyed by its position. *)
Theorem featureList_shape (p : Product) :
  match features p with
  | None => featureList p = Blank
  | Some fs =>
      (fs = [] -> featureList p = Blank)
      /\ (fs <> [] ->
          exists items,
            featureList p = Element items
            /\ map snd items = fs
            /\ map fst items = seq 0 (List.length fs))
  end.
Proof.
  unfold featureList. destruct (features p) as [fs|]; [|reflexivity].
  split.
  - intros ->. reflexivity.
  - intros Hne. destruct fs as [|f fs]; [congruence|].
    eexists. split; [reflexivity|].
    split; [apply combine_seq_snd|apply combine_seq_fst].
Qed.

Lemma find_app_found {A : Type} (f : A -> bool) (l more : list A) (x : A) :
  find f l = Some x -> find f (l ++ more)%list = Some x.
Proof.
  induction l as [|y l IH]; simpl; [discriminate|].
  destruct (f y); [auto|exact IH].
Qed.

(** X16: the catalog can grow without disturbing what was there: over a
    catalog followed by further products, a search returns what it
    returned before followed by what it returns on the further products
    alone; a lookup that found a product still finds that product; and
    once four products are stored the featured products stay the same. *)
Theorem catalog_growth (st more : Store) :
  (forall params,
     exists r1 r2,
       searchProducts params st = (Fulfilled r1, st)
       /\ searchProducts params more = (Fulfilled r2, more)
       /\ searchProducts params (st ++ more)%list
          = (Fulfilled (r1 ++ r2)%list, (st ++ more)%list))
  /\ (forall id p,
        getProductByASIN id st = (Fulfilled (Some p), st) ->
        getProductByASIN id (st ++ more)%list
        = (Fulfilled (Some p), (st ++ more)%list))
  /\ (4 <= List.length st ->
      exists r,
        getFeaturedProducts st = (Fulfilled r, st)
        /\ getFeaturedProducts (st ++ more)%list
           = (Fulfilled r, (st ++ more)%list)).
Proof.
  split; [|split].
  - intros params. do 2 eexists. rewrite !searchProducts_run.
    do 2 (split; [reflexivity|]). rewrite filter_app. reflexivity.
  - intros id p. rewrite !getProductByASIN_run. intros [= Hfind].
    rewrite (find_app_found _ st more p Hfind). reflexivity.
  - intros Hlen. eexists. rewrite !getFeaturedProducts_run.
    split; [reflexivity|]. rewrite firstn_app.
    replace (4 - List.length st) with 0 by lia.
    simpl. rewrite app_nil_r. reflexivity.
Qed.
